(** * mcp_pytest: tool-invocation runtime, assertion engine and session lifecycle

    A shallow embedding of the Python package [mcp_pytest]:
    - [assertions/base.py], [assertions/tool_result.py]  (module [Assertions])
    - [client/tool_caller.py]                            (modules [Outcome], [Caller])
    - [client/session.py]                                (module [Session])
    - [client/manager.py], [config/models.py]            (modules [Config], [Manager])

    Python objects are records, methods are functions taking [self] first and
    returning the updated object next to their result.  A Python call that may
    raise returns a [PyResult].  Everything the package reaches through a
    library it does not define (the [mcp] transport, [re], [time], float
    formatting) is an operation of the classes [PyRuntime] and [Transport].
    Calls to the [logging] module and to the optional [MCPLogger] only write
    diagnostics and are left out. *)

From Stdlib Require Import List String Ascii Bool Arith ZArith Lia Floats DecimalString.
Import ListNotations.
Open Scope string_scope.

(* ===================================================================== *)
(** ** Python values used by the package *)
(* ===================================================================== *)
Module Py.

(** ["\n"] *)
Definition newline : string := String (ascii_of_nat 10) EmptyString.

(** [sep.join(parts)] *)
Definition join (sep : string) (parts : list string) : string :=
  String.concat sep parts.

(** [str(n)] for a non-negative [int] (a [len(...)] in every use). *)
Definition str_of_nat (n : nat) : string :=
  NilEmpty.string_of_uint (Nat.to_uint n).

(** [sub in s] on strings. *)
Fixpoint str_in (sub s : string) : bool :=
  if String.prefix sub s then true
  else match s with
       | EmptyString => false
       | String _ rest => str_in sub rest
       end.

(** [bool(s)] for a [str], and for an [Optional[str]]. *)
Definition truthy (s : string) : bool := negb (String.eqb s "").

Definition truthy_opt (o : option string) : bool :=
  match o with
  | Some s => truthy s
  | None => false
  end.

(** [s.upper()], on ASCII letters. *)
Definition ascii_upper (c : ascii) : ascii :=
  let n := nat_of_ascii c in
  if ((97 <=? n)%nat && (n <=? 122)%nat)%bool then ascii_of_nat (n - 32) else c.

Fixpoint upper (s : string) : string :=
  match s with
  | EmptyString => EmptyString
  | String c rest => String (ascii_upper c) (upper rest)
  end.

(** The exception classes the package raises or handles.  All of them derive
    from [Exception]; interpreter signals that derive from [BaseException]
    only ([KeyboardInterrupt], [SystemExit]) are outside the model. *)
Inductive ExcClass : Type :=
| Exception
| OSError
| TimeoutError
| ConnectionError
| ValueError
| AssertionError
| AttributeError
| RuntimeError.

(** [issubclass(c, d)] *)
Definition issubclass (c d : ExcClass) : bool :=
  match d, c with
  | Exception, _ => true
  | OSError, (OSError | TimeoutError | ConnectionError) => true
  | TimeoutError, TimeoutError => true
  | ConnectionError, ConnectionError => true
  | ValueError, ValueError => true
  | AssertionError, AssertionError => true
  | AttributeError, AttributeError => true
  | RuntimeError, RuntimeError => true
  | _, _ => false
  end.

(** An exception object: its class and [str(e)]. *)
Record PyExn : Type := mkExn { exc_class : ExcClass; exc_str : string }.

Definition isinstance (e : PyExn) (c : ExcClass) : bool :=
  issubclass (exc_class e) c.

(** The result of a call: a value, or a raised exception. *)
Inductive PyResult (A : Type) : Type :=
| Return (a : A)
| Raise (e : PyExn).
Arguments Return {A} a.
Arguments Raise {A} e.

(** An argument value of a tool call ([Dict[str, Any]]). *)
#[warnings="-register-all"]
Inductive PyValue : Type :=
| PyNone
| PyBool (b : bool)
| PyInt (z : Z)
| PyFloat (x : float)
| PyStr (s : string)
| PyList (items : list PyValue).

(** A [dict] with [str] keys: insertion ordered, keys unique. *)
Definition Dict (V : Type) : Type := list (string * V).

Definition dict_get {V} (d : Dict V) (k : string) : option V :=
  option_map snd (find (fun kv => String.eqb (fst kv) k) d).

(** [k in d] *)
Definition dict_contains {V} (d : Dict V) (k : string) : bool :=
  existsb (fun kv => String.eqb (fst kv) k) d.

(** [d[k] = v]: an existing key keeps its place, a new one goes last. *)
Fixpoint dict_set {V} (d : Dict V) (k : string) (v : V) : Dict V :=
  match d with
  | [] => [(k, v)]
  | (k', v') :: rest =>
      if String.eqb k' k then (k, v) :: rest else (k', v') :: dict_set rest k v
  end.

(** [del d[k]] *)
Definition dict_del {V} (d : Dict V) (k : string) : Dict V :=
  filter (fun kv => negb (String.eqb (fst kv) k)) d.

(** [list(d.keys())] *)
Definition dict_keys {V} (d : Dict V) : list string := map fst d.

End Py.
Import Py.

(** What the package takes from the Python runtime and its standard library. *)
Class PyRuntime : Type := {
  (** [f"{x}"] for a [float] *)
  float_str : float -> string;
  (** [f"{x:.2f}"] *)
  float_fmt2 : float -> string;
  (** [re.compile(pattern, flags).search(s) is not None] *)
  re_search : string -> Z -> string -> bool;
  (** the empty pattern matches at the start of every string *)
  re_search_empty : forall flags s, re_search "" flags s = true
}.

(** [re.IGNORECASE] *)
Definition IGNORECASE : Z := 2%Z.

(* ===================================================================== *)
(** ** Protocol results ([mcp.types]) *)
(* ===================================================================== *)
Module Mcp.

(** A content block of a result.  [TextContent] is the protocol's text block;
    [DuckText] is any other object with a [text] attribute, carrying
    [str(content.text)]; [OpaqueContent] has no [text] attribute (image,
    audio, embedded resource). *)
Inductive ContentBlock : Type :=
| TextContent (text : string)
| DuckText (text_str : string)
| OpaqueContent (kind : string).

Record CallToolResult : Type := mkCallToolResult {
  content : list ContentBlock;
  isError : bool
}.

(** [tool.name] of a listed tool. *)
Record Tool : Type := mkTool { tool_name : string; tool_description : string }.

End Mcp.
Import Mcp.

(* ===================================================================== *)
(** ** [ToolCallResult] (tool_caller.py) *)
(* ===================================================================== *)
Module Outcome.

Record ToolCallResult : Type := mkToolCallResult {
  name : string;
  arguments : Dict PyValue;
  result : CallToolResult;
  duration_seconds : float;
  success : bool;
  error_message : option string;
  _text_content : option string
}.

(** The dataclass constructor as [ToolCaller.call] uses it: [_text_content]
    takes its default [None]. *)
Definition new (name : string) (arguments : Dict PyValue) (result : CallToolResult)
  (duration_seconds : float) (success : bool) (error_message : option string)
  : ToolCallResult :=
  mkToolCallResult name arguments result duration_seconds success error_message None.

Definition set_text_content (self : ToolCallResult) (v : option string) : ToolCallResult :=
  mkToolCallResult (name self) (arguments self) (result self) (duration_seconds self)
    (success self) (error_message self) v.

(** The loop of [text_content]: [texts.append(...)] for each text-bearing block. *)
Definition append_text (texts : list string) (c : ContentBlock) : list string :=
  match c with
  | TextContent t => texts ++ [t]
  | DuckText t => texts ++ [t]
  | OpaqueContent _ => texts
  end.

(** The property [text_content]: the string it returns and the object after
    the call (the property fills the cache [_text_content]). *)
Definition text_content (self : ToolCallResult) : string * ToolCallResult :=
  match _text_content self with
  | Some cached => (cached, self)
  | None =>
      match content (result self) with
      | [] => ("", self)
      | blocks =>
          let texts := fold_left append_text blocks [] in
          let joined := join newline texts in
          (joined, set_text_content self (Some joined))
      end
  end.

(** The value of the property alone. *)
Definition text (self : ToolCallResult) : string := fst (text_content self).

(** The property [is_error]; a [CallToolResult] always has [isError]. *)
Definition is_error (self : ToolCallResult) : bool := isError (result self).

End Outcome.
Import Outcome.

(* ===================================================================== *)
(** ** Assertions (assertions/base.py, assertions/tool_result.py) *)
(* ===================================================================== *)
Module Assertions.

Record AssertionResult : Type := mkAssertionResult {
  passed : bool;
  message : string;
  expected : option string;
  actual : option string;
  details : option string
}.

(** [AssertionResult(passed=..., message=...)], the other fields at [None]. *)
Definition verdict (passed : bool) (message : string) : AssertionResult :=
  mkAssertionResult passed message None None None.

(** The abstract class [BaseAssertion]: what every assertion offers. *)
Record BaseAssertion : Type := mkAssertion {
  check : ToolCallResult -> AssertionResult;
  description : string
}.

(** [f"{x}"] for an [Optional[str]] and for a [bool]. *)
Definition fmt_opt (o : option string) : string :=
  match o with Some s => s | None => "None" end.

Definition fmt_bool (b : bool) : string := if b then "True" else "False".

(** [text[:200] + "..." if len(text) > 200 else text] *)
Definition clip (text : string) : string :=
  if (200 <? String.length text)%nat then String.substring 0 200 text ++ "..." else text.

Module SuccessAssertion.

Definition check (result : ToolCallResult) : AssertionResult :=
  mkAssertionResult
    (success result)
    "Tool call should succeed"
    (Some "success=True")
    (Some ("success=" ++ fmt_bool (success result)))
    (if negb (success result) then error_message result else None).

Definition description : string := "Tool call succeeds".

Definition new : BaseAssertion := mkAssertion check description.

End SuccessAssertion.

Module ErrorAssertion.

(** [_pattern] is the compiled pattern, kept as its source text. *)
Record t : Type := mk { _pattern : option string; _pattern_str : option string }.

Definition new (error_pattern : option string) : t :=
  mk (if truthy_opt error_pattern then error_pattern else None) error_pattern.

Definition check `{PyRuntime} (self : t) (result : ToolCallResult) : AssertionResult :=
  if success result then
    mkAssertionResult false "Tool call should fail"
      (Some "success=False (error)") (Some "success=True") None
  else
    match _pattern self with
    | Some pattern =>
        if truthy_opt (error_message result) then
          if negb (re_search pattern IGNORECASE (fmt_opt (error_message result))) then
            mkAssertionResult false
              ("Error message should match pattern: " ++ fmt_opt (_pattern_str self))
              (_pattern_str self) (error_message result) None
          else verdict true "Tool call failed as expected"
        else verdict true "Tool call failed as expected"
    | None => verdict true "Tool call failed as expected"
    end.

Definition description (self : t) : string :=
  if truthy_opt (_pattern_str self)
  then "Tool call fails with error matching '" ++ fmt_opt (_pattern_str self) ++ "'"
  else "Tool call fails".

Definition as_base `{PyRuntime} (self : t) : BaseAssertion :=
  mkAssertion (check self) (description self).

End ErrorAssertion.

Module ResultContainsAssertion.

Record t : Type := mk { _expected : string; _case_sensitive : bool }.

(** [s.lower()], on ASCII letters. *)
Definition ascii_lower (c : ascii) : ascii :=
  let n := nat_of_ascii c in
  if ((65 <=? n)%nat && (n <=? 90)%nat)%bool then ascii_of_nat (n + 32) else c.

Fixpoint lower (s : string) : string :=
  match s with
  | EmptyString => EmptyString
  | String c rest => String (ascii_lower c) (lower rest)
  end.

Definition check (self : t) (result : ToolCallResult) : AssertionResult :=
  let text := Outcome.text result in
  let found :=
    if _case_sensitive self then str_in (_expected self) text
    else str_in (lower (_expected self)) (lower text) in
  if found then verdict true ("Result contains '" ++ _expected self ++ "'")
  else
    mkAssertionResult false ("Result should contain '" ++ _expected self ++ "'")
      (Some (_expected self)) (Some (clip text)) None.

Definition description (self : t) : string :=
  "Result contains '" ++ _expected self ++ "'".

Definition as_base (self : t) : BaseAssertion :=
  mkAssertion (check self) (description self).

End ResultContainsAssertion.

Module ResultMatchesAssertion.

Record t : Type := mk { _pattern_str : string; _flags : Z }.

Definition check `{PyRuntime} (self : t) (result : ToolCallResult) : AssertionResult :=
  let text := Outcome.text result in
  if re_search (_pattern_str self) (_flags self) text then
    verdict true ("Result matches pattern '" ++ _pattern_str self ++ "'")
  else
    mkAssertionResult false ("Result should match pattern '" ++ _pattern_str self ++ "'")
      (Some (_pattern_str self)) (Some (clip text)) None.

Definition description (self : t) : string :=
  "Result matches '" ++ _pattern_str self ++ "'".

Definition as_base `{PyRuntime} (self : t) : BaseAssertion :=
  mkAssertion (check self) (description self).

End ResultMatchesAssertion.

Module DurationAssertion.

Record t : Type := mk { _max_seconds : float; _min_seconds : option float }.

Definition check `{PyRuntime} (self : t) (result : ToolCallResult) : AssertionResult :=
  let duration := duration_seconds result in
  if PrimFloat.ltb (_max_seconds self) duration then
    mkAssertionResult false
      ("Tool call should complete within " ++ float_str (_max_seconds self) ++ "s")
      (Some ("<= " ++ float_str (_max_seconds self) ++ "s"))
      (Some (float_fmt2 duration ++ "s")) None
  else
    match _min_seconds self with
    | Some min_seconds =>
        if PrimFloat.ltb duration min_seconds then
          mkAssertionResult false
            ("Tool call should take at least " ++ float_str min_seconds ++ "s")
            (Some (">= " ++ float_str min_seconds ++ "s"))
            (Some (float_fmt2 duration ++ "s")) None
        else verdict true ("Tool call completed in " ++ float_fmt2 duration ++ "s")
    | None => verdict true ("Tool call completed in " ++ float_fmt2 duration ++ "s")
    end.

Definition description `{PyRuntime} (self : t) : string :=
  match _min_seconds self with
  | Some min_seconds =>
      "Duration between " ++ float_str min_seconds ++ "s and "
        ++ float_str (_max_seconds self) ++ "s"
  | None => "Duration <= " ++ float_str (_max_seconds self) ++ "s"
  end.

Definition as_base `{PyRuntime} (self : t) : BaseAssertion :=
  mkAssertion (check self) (description self).

End DurationAssertion.

Module CustomAssertion.

Record t : Type := mk {
  _check_func : ToolCallResult -> PyResult bool;
  _description : string;
  _message_func : option (ToolCallResult -> PyResult string)
}.

Definition check (self : t) (result : ToolCallResult) : AssertionResult :=
  match _check_func self result with
  | Raise e =>
      mkAssertionResult false ("Assertion check failed with error: " ++ exc_str e)
        None None (Some (exc_str e))
  | Return true => verdict true (_description self)
  | Return false =>
      let message :=
        match _message_func self with
        | Some message_func =>
            match message_func result with
            | Return m => m
            | Raise _ => _description self
            end
        | None => _description self
        end in
      mkAssertionResult false ("Failed: " ++ message) None
        (Some (if truthy (Outcome.text result)
               then String.substring 0 200 (Outcome.text result)
               else "(empty)"))
        None
  end.

Definition description (self : t) : string := _description self.

Definition as_base (self : t) : BaseAssertion :=
  mkAssertion (check self) (description self).

End CustomAssertion.

Module NotAssertion.

Record t : Type := mk { _assertion : BaseAssertion }.

Definition check (self : t) (result : ToolCallResult) : AssertionResult :=
  let inner_result := Assertions.check (_assertion self) result in
  mkAssertionResult
    (negb (passed inner_result))
    ("NOT (" ++ Assertions.description (_assertion self) ++ ")")
    None None
    (Some (if negb (passed inner_result)
           then "Inner assertion " ++ (if passed inner_result then "failed" else "passed")
                  ++ " as expected"
           else "Inner assertion passed but should have failed")).

Definition description (self : t) : string :=
  "NOT (" ++ Assertions.description (_assertion self) ++ ")".

Definition as_base (self : t) : BaseAssertion :=
  mkAssertion (check self) (description self).

End NotAssertion.

Module CompositeAssertion.

Record t : Type := mk { _assertions : list BaseAssertion; _operator : string }.

(** [__init__]: the operator is validated when the object is built. *)
Definition new (assertions : list BaseAssertion) (operator : string) : PyResult t :=
  if negb (String.eqb operator "and" || String.eqb operator "or") then
    Raise (mkExn ValueError
             ("Invalid operator: " ++ operator ++ ". Must be 'and' or 'or'"))
  else Return (mk assertions operator).

Definition bullet (r : AssertionResult) : string := "- " ++ message r.

Definition check (self : t) (result : ToolCallResult) : AssertionResult :=
  let results := map (fun a => Assertions.check a result) (_assertions self) in
  if String.eqb (_operator self) "and" then
    let passed_ := forallb passed results in
    let failed := filter (fun r => negb (passed r)) results in
    if passed_ then
      verdict passed_
        ("All " ++ str_of_nat (List.length (_assertions self)) ++ " assertions passed")
    else
      let messages := map bullet failed in
      verdict passed_
        (str_of_nat (List.length failed) ++ " assertion(s) failed:" ++ newline
           ++ join newline messages)
  else
    let passed_ := existsb passed results in
    if passed_ then
      let passed_results := filter passed results in
      verdict passed_
        (str_of_nat (List.length passed_results) ++ " of "
           ++ str_of_nat (List.length (_assertions self)) ++ " assertions passed")
    else
      let messages := map bullet results in
      verdict passed_
        ("None of " ++ str_of_nat (List.length (_assertions self)) ++ " assertions passed:"
           ++ newline ++ join newline messages).

Definition description (self : t) : string :=
  let descs := map Assertions.description (_assertions self) in
  let joiner := " " ++ upper (_operator self) ++ " " in
  "(" ++ join joiner descs ++ ")".

(** [add]: appends to the composite. *)
Definition add (self : t) (assertion : BaseAssertion) : t :=
  mk (_assertions self ++ [assertion]) (_operator self).

Definition as_base (self : t) : BaseAssertion :=
  mkAssertion (check self) (description self).

(** The subclasses [AllOf] and [AnyOf]. *)
Definition AllOf (assertions : list BaseAssertion) : t := mk assertions "and".
Definition AnyOf (assertions : list BaseAssertion) : t := mk assertions "or".

End CompositeAssertion.

End Assertions.

(* ===================================================================== *)
(** ** Configuration (config/models.py) *)
(* ===================================================================== *)
Module Config.

Record ServerConfig : Type := mkServerConfig {
  name : string;
  command : string;
  args : list string;
  env : Dict string;
  cwd : option string;
  startup_timeout : float;
  shutdown_timeout : float
}.

Record MCPTestConfig : Type := mkMCPTestConfig {
  servers : list ServerConfig;
  default_timeout : float;
  log_level : string;
  log_mcp_messages : bool;
  cleanup_on_failure : bool;
  parallel_servers : bool
}.

Definition get_server (self : MCPTestConfig) (server_name : string) : option ServerConfig :=
  find (fun server => String.eqb (name server) server_name) (servers self).

Definition get_server_names (self : MCPTestConfig) : list string :=
  map name (servers self).

End Config.

(* ===================================================================== *)
(** ** The transport boundary ([mcp], [asyncio], [time], [os]) *)
(* ===================================================================== *)

(** [StdioServerParameters] *)
Record StdioServerParameters : Type := mkServerParams {
  sp_command : string;
  sp_args : list string;
  sp_env : Dict string;
  sp_cwd : option string
}.

(** The body of an [async with asyncio.timeout(d)] block either finishes
    (returning or raising) or is cancelled when the deadline passes. *)
Inductive Awaited (A : Type) : Type :=
| Finished (r : PyResult A)
| Expired.
Arguments Finished {A} r.
Arguments Expired {A}.

(** The exception that ends such a block badly; a passed deadline surfaces as
    [TimeoutError] ([asyncio.TimeoutError] is the same class). *)
Inductive Failure : Type :=
| Cancelled
| Raised (e : PyExn).

Definition in_flight (f : Failure) : PyExn :=
  match f with
  | Cancelled => mkExn TimeoutError ""
  | Raised e => e
  end.

(** How far [connect] got when it failed, with what it had assigned by then. *)
Inductive OpenStage (R : Type) : Type :=
| AtStdioClient
| AtClientSession (read_stream write_stream : R)
| AtInitialize (read_stream write_stream session : R).
Arguments AtStdioClient {R}.
Arguments AtClientSession {R} read_stream write_stream.
Arguments AtInitialize {R} read_stream write_stream session.

Inductive OpenOutcome (R : Type) : Type :=
| Opened (read_stream write_stream session : R)
| OpenFailed (stage : OpenStage R) (cause : Failure).
Arguments Opened {R} read_stream write_stream session.
Arguments OpenFailed {R} stage cause.

(** The world outside the package: subprocesses, streams and the clock.
    [Resource] is a reference to an object of the [mcp] or [contextlib]
    libraries; its state lives in the [World]. *)
Class Transport : Type := {
  World : Type;
  Resource : Type;
  (** [os.environ] *)
  os_environ : World -> Dict string;
  (** [time.perf_counter()] *)
  perf_counter : World -> float * World;
  (** [AsyncExitStack()] *)
  new_exit_stack : World -> Resource * World;
  (** entering [stdio_client], entering [ClientSession] and [initialize()],
      on the given exit stack, under [asyncio.timeout(deadline)] *)
  open_session : Resource -> StdioServerParameters -> float -> World
                 -> OpenOutcome Resource * World;
  (** [session.call_tool(name, arguments)] under [asyncio.timeout(deadline)] *)
  rpc_call_tool : Resource -> string -> Dict PyValue -> float -> World
                  -> Awaited CallToolResult * World;
  (** [session.list_tools()], then [.tools] *)
  rpc_list_tools : Resource -> World -> PyResult (list Tool) * World;
  (** [exit_stack.aclose()] run to its end *)
  aclose : Resource -> World -> PyResult unit * World;
  (** [Some w'] when [exit_stack.aclose()] does not end within the deadline
      and is cancelled, leaving the world [w'] *)
  aclose_expires : Resource -> float -> World -> option World
}.

(* ===================================================================== *)
(** ** [MCPClientSession] (client/session.py) *)
(* ===================================================================== *)
Module Session.

Record MCPClientSession `{Transport} : Type := mkSession {
  _config : Config.ServerConfig;
  _session : option Resource;
  _exit_stack : option Resource;
  _read_stream : option Resource;
  _write_stream : option Resource
}.

Section Methods.
Context `{RT : PyRuntime} `{TR : Transport}.

(** [__init__] *)
Definition new (server_config : Config.ServerConfig) : MCPClientSession :=
  mkSession _ server_config None None None None.

Definition name (self : MCPClientSession) : string := Config.name (_config self).

Definition is_connected (self : MCPClientSession) : bool :=
  match _session self with Some _ => true | None => false end.

Definition _build_server_params (self : MCPClientSession) (w : World)
  : StdioServerParameters :=
  let env := fold_left (fun d kv => dict_set d (fst kv) (snd kv))
               (Config.env (_config self)) (os_environ w) in
  mkServerParams (Config.command (_config self)) (Config.args (_config self)) env
    (Config.cwd (_config self)).

(** The four assignments that end [_cleanup]. *)
Definition cleared (self : MCPClientSession) : MCPClientSession :=
  mkSession _ (_config self) None None None None.

(** [_cleanup].  [deadline] is the enclosing [asyncio.timeout], if any: when
    it passes during [aclose()] the cancellation is not an [Exception], so it
    leaves [_cleanup] before the fields are reset and surfaces as a
    [TimeoutError] at the end of the timeout block. *)
Definition _cleanup (deadline : option float) (self : MCPClientSession) (w : World)
  : MCPClientSession * PyResult unit * World :=
  match _exit_stack self with
  | Some stack =>
      match match deadline with
            | Some d => aclose_expires stack d w
            | None => None
            end with
      | Some w' => (self, Raise (mkExn TimeoutError ""), w')
      | None =>
          (* an [Exception] raised by [aclose()] is logged and dropped *)
          let '(_, w') := aclose stack w in
          (cleared self, Return tt, w')
      end
  | None => (cleared self, Return tt, w)
  end.

(** What [connect] has assigned when the timeout block ends. *)
Definition assigned (self : MCPClientSession) (stack : Resource)
  (o : OpenOutcome Resource) : MCPClientSession :=
  match o with
  | Opened rd wr sess
  | OpenFailed (AtInitialize rd wr sess) _ =>
      mkSession _ (_config self) (Some sess) (Some stack) (Some rd) (Some wr)
  | OpenFailed (AtClientSession rd wr) _ =>
      mkSession _ (_config self) None (Some stack) (Some rd) (Some wr)
  | OpenFailed AtStdioClient _ =>
      mkSession _ (_config self) None (Some stack) None None
  end.

Definition connect (self : MCPClientSession) (w : World)
  : MCPClientSession * PyResult unit * World :=
  if is_connected self then (self, Return tt, w)
  else
    let '(stack, w) := new_exit_stack w in
    let server_params := _build_server_params self w in
    let '(o, w) :=
      open_session stack server_params (Config.startup_timeout (_config self)) w in
    let self := assigned self stack o in
    match o with
    | Opened _ _ _ => (self, Return tt, w)
    | OpenFailed _ cause =>
        let e := in_flight cause in
        let '(self, _, w) := _cleanup None self w in
        if isinstance e TimeoutError then
          (self,
           Raise (mkExn TimeoutError
                    ("Connection to MCP server '" ++ name self ++ "' timed out after "
                       ++ float_str (Config.startup_timeout (_config self)) ++ "s")),
           w)
        else
          (self,
           Raise (mkExn ConnectionError
                    ("Failed to connect to MCP server '" ++ name self ++ "': "
                       ++ exc_str e)),
           w)
    end.

Definition disconnect (self : MCPClientSession) (w : World)
  : MCPClientSession * PyResult unit * World :=
  if negb (is_connected self) then (self, Return tt, w)
  else
    match _cleanup (Some (Config.shutdown_timeout (_config self))) self w with
    | (self, Return _, w) => (self, Return tt, w)
    | (self, Raise e, w) =>
        if isinstance e TimeoutError then _cleanup None self w
        else (self, Raise e, w)
    end.

Definition _ensure_connected (self : MCPClientSession) : PyResult unit :=
  if negb (is_connected self) then
    Raise (mkExn ConnectionError ("MCP server '" ++ name self ++ "' is not connected"))
  else Return tt.

Definition none_has_no (attr : string) : PyExn :=
  mkExn AttributeError ("'NoneType' object has no attribute '" ++ attr ++ "'").

Definition list_tools (self : MCPClientSession) (w : World)
  : PyResult (list Tool) * World :=
  match _ensure_connected self with
  | Raise e => (Raise e, w)
  | Return _ =>
      match _session self with
      | Some session => rpc_list_tools session w
      | None => (Raise (none_has_no "list_tools"), w)
      end
  end.

Definition call_tool (self : MCPClientSession) (tool : string)
  (arguments : option (Dict PyValue)) (timeout : option float) (w : World)
  : PyResult CallToolResult * World :=
  match _ensure_connected self with
  | Raise e => (Raise e, w)
  | Return _ =>
      let arguments := match arguments with Some a => a | None => [] end in
      let effective_timeout :=
        match timeout with
        | Some t => t
        | None => Config.startup_timeout (_config self)
        end in
      match _session self with
      | None => (Raise (none_has_no "call_tool"), w)
      | Some session =>
          let reraise (e : PyExn) : PyResult CallToolResult :=
            if isinstance e TimeoutError then
              Raise (mkExn TimeoutError
                       ("Tool call '" ++ tool ++ "' timed out after "
                          ++ float_str effective_timeout ++ "s"))
            else Raise e in
          let '(a, w) := rpc_call_tool session tool arguments effective_timeout w in
          match a with
          | Finished (Return result) => (Return result, w)
          | Finished (Raise e) => (reraise e, w)
          | Expired => (reraise (in_flight Cancelled), w)
          end
      end
  end.

End Methods.
End Session.

(* ===================================================================== *)
(** ** [ToolCaller] (client/tool_caller.py) *)
(* ===================================================================== *)
Module Caller.
Import Session.

Record ToolCaller `{Transport} : Type := mkToolCaller {
  _session : MCPClientSession;
  _default_timeout : float;
  _call_history : list ToolCallResult
}.

Section Methods.
Context `{RT : PyRuntime} `{TR : Transport}.

(** [__init__]: the history starts empty. *)
Definition new (session : MCPClientSession) (default_timeout : float) : ToolCaller :=
  mkToolCaller _ session default_timeout [].

(** The property [call_history] returns a copy of the list. *)
Definition call_history (self : ToolCaller) : list ToolCallResult :=
  _call_history self.

Definition _extract_error_message (result : CallToolResult) : string :=
  match content result with
  | [] => "Unknown error"
  | blocks =>
      (fix loop (l : list ContentBlock) : string :=
         match l with
         | [] => "Unknown error"
         | TextContent t :: _ => t
         | DuckText t :: _ => t
         | OpaqueContent _ :: rest => loop rest
         end) blocks
  end.

(** [self._call_history.append(call_result)] *)
Definition record_call (self : ToolCaller) (call_result : ToolCallResult) : ToolCaller :=
  mkToolCaller _ (_session self) (_default_timeout self)
    (_call_history self ++ [call_result]).

Definition call (self : ToolCaller) (tool_name : string)
  (arguments : option (Dict PyValue)) (timeout : option float) (expect_error : bool)
  (w : World) : PyResult ToolCallResult * ToolCaller * World :=
  let arguments := match arguments with Some a => a | None => [] end in
  let effective_timeout :=
    match timeout with Some t => t | None => _default_timeout self end in
  let '(start_time, w) := perf_counter w in
  let finish (result : CallToolResult) (duration : float) (success : bool)
        (error_message : option string) (w : World) :=
    let call_result :=
      Outcome.new tool_name arguments result duration success error_message in
    (Return call_result, record_call self call_result, w) in
  let '(r, w) :=
    call_tool (_session self) tool_name (Some arguments) (Some effective_timeout) w in
  match r with
  | Return result =>
      let '(now, w) := perf_counter w in
      let duration := PrimFloat.sub now start_time in
      let is_error := isError result in
      if expect_error then
        let success := is_error in
        finish result duration success
          (if negb success then Some "Expected error but tool succeeded" else None) w
      else
        let success := negb is_error in
        finish result duration success
          (if is_error then Some (_extract_error_message result) else None) w
  | Raise e =>
      if isinstance e TimeoutError then
        let '(now, w) := perf_counter w in
        let duration := PrimFloat.sub now start_time in
        finish (mkCallToolResult [] true) duration expect_error (Some (exc_str e)) w
      else if isinstance e Exception then
        let '(now, w) := perf_counter w in
        let duration := PrimFloat.sub now start_time in
        finish (mkCallToolResult [] true) duration expect_error
          (Some ("Tool call failed: " ++ exc_str e)) w
      else (Raise e, self, w)
  end.

(** One line of the report of [call_and_assert]. *)
Definition failure_line (assertion : Assertions.BaseAssertion) (result : ToolCallResult)
  : string :=
  "- " ++ Assertions.description assertion ++ ": "
    ++ Assertions.message (Assertions.check assertion result).

(** The loop of [call_and_assert] over the assertions. *)
Definition failed_assertions (assertions : list Assertions.BaseAssertion)
  (result : ToolCallResult) : list string :=
  fold_left
    (fun (failed : list string) assertion =>
       let assertion_result := Assertions.check assertion result in
       if negb (Assertions.passed assertion_result)
       then (failed ++ [failure_line assertion result])%list
       else failed)
    assertions [].

Definition call_and_assert (self : ToolCaller) (tool_name : string)
  (arguments : option (Dict PyValue)) (assertions : option (list Assertions.BaseAssertion))
  (timeout : option float) (w : World)
  : PyResult ToolCallResult * ToolCaller * World :=
  let '(r, self, w) := call self tool_name arguments timeout false w in
  match r with
  | Raise e => (Raise e, self, w)
  | Return result =>
      match assertions with
      | None | Some [] => (Return result, self, w)
      | Some assertions =>
          match failed_assertions assertions result with
          | [] => (Return result, self, w)
          | failed =>
              (Raise (mkExn AssertionError
                        ("Tool call '" ++ tool_name ++ "' failed assertions:" ++ newline
                           ++ join newline failed)),
               self, w)
          end
      end
  end.

Definition list_tools (self : ToolCaller) (w : World)
  : PyResult (list string) * World :=
  match Session.list_tools (_session self) w with
  | (Return tools, w) => (Return (map tool_name tools), w)
  | (Raise e, w) => (Raise e, w)
  end.

Definition clear_history (self : ToolCaller) : ToolCaller :=
  mkToolCaller _ (_session self) (_default_timeout self) [].

Definition get_last_call (self : ToolCaller) : option ToolCallResult :=
  match _call_history self with
  | [] => None
  | h => nth_error h (List.length h - 1)
  end.

Definition get_calls_for_tool (self : ToolCaller) (tool : string) : list ToolCallResult :=
  filter (fun c => String.eqb (Outcome.name c) tool) (_call_history self).

End Methods.
End Caller.

(* ===================================================================== *)
(** ** [MCPServerManager] (client/manager.py) *)
(* ===================================================================== *)
Module Manager.
Import Session.

(** An [asyncio.Lock].  A task that holds the lock of a server name runs its
    critical section to the end before another task for that name starts, so
    a lock is never found held; the dict records which locks exist. *)
Inductive Lock : Type := mkLock.

Record MCPServerManager `{Transport} : Type := mkManager {
  _config : Config.MCPTestConfig;
  _sessions : Dict MCPClientSession;
  _locks : Dict Lock
}.

Section Methods.
Context `{RT : PyRuntime} `{TR : Transport}.

(** [__init__] *)
Definition new (config : Config.MCPTestConfig) : MCPServerManager :=
  mkManager _ config [] [].

Definition set_sessions (self : MCPServerManager) (sessions : Dict MCPClientSession)
  : MCPServerManager :=
  mkManager _ (_config self) sessions (_locks self).

Definition server_names (self : MCPServerManager) : list string :=
  Config.get_server_names (_config self).

Definition connected_servers (self : MCPServerManager) : list string :=
  map fst (filter (fun item => is_connected (snd item)) (_sessions self)).

Definition start_server (self : MCPServerManager) (server_name : string) (w : World)
  : PyResult MCPClientSession * MCPServerManager * World :=
  let self :=
    if negb (dict_contains (_locks self) server_name)
    then mkManager _ (_config self) (_sessions self)
           (dict_set (_locks self) server_name mkLock)
    else self in
  (* async with self._locks[server_name]: *)
  let connected :=
    match dict_get (_sessions self) server_name with
    | Some session => if is_connected session then Some session else None
    | None => None
    end in
  match connected with
  | Some session => (Return session, self, w)
  | None =>
      match Config.get_server (_config self) server_name with
      | None =>
          let names := join ", " (server_names self) in
          let available := if truthy names then names else "(none)" in
          (Raise (mkExn ValueError
                    ("Server '" ++ server_name ++ "' not found in configuration. "
                       ++ "Available servers: " ++ available)),
           self, w)
      | Some server_config =>
          let session := Session.new server_config in
          match connect session w with
          | (_, Raise e, w) => (Raise e, self, w)
          | (session, Return _, w) =>
              (Return session,
               set_sessions self (dict_set (_sessions self) server_name session), w)
          end
      end
  end.

Definition stop_server (self : MCPServerManager) (server_name : string) (w : World)
  : PyResult unit * MCPServerManager * World :=
  match dict_get (_sessions self) server_name with
  | None => (Return tt, self, w)
  | Some session =>
      let '(session, r, w) :=
        if is_connected session then disconnect session w
        else (session, Return tt, w) in
      match r with
      | Raise e =>
          (Raise e, set_sessions self (dict_set (_sessions self) server_name session), w)
      | Return _ =>
          (Return tt, set_sessions self (dict_del (_sessions self) server_name), w)
      end
  end.

Definition stop_all_servers (self : MCPServerManager) (w : World)
  : MCPServerManager * World :=
  let server_names := dict_keys (_sessions self) in
  fold_left
    (fun (st : MCPServerManager * World) name =>
       (* an [Exception] raised by [stop_server] is logged and dropped *)
       let '(_, self, w) := stop_server (fst st) name (snd st) in
       (self, w))
    server_names (self, w).

Fixpoint _start_servers_sequential (self : MCPServerManager)
  (server_names : list string) (w : World)
  : PyResult (Dict MCPClientSession) * MCPServerManager * World :=
  match server_names with
  | [] => (Return (_sessions self), self, w)
  | name :: rest =>
      match start_server self name w with
      | (Raise e, self, w) => (Raise e, self, w)
      | (Return _, self, w) => _start_servers_sequential self rest w
      end
  end.

(** [asyncio.gather] over the tasks [start_server(name)].  [schedule] lists
    the task indices in the order in which the event loop runs the tasks; the
    log pairs each index with what its task returned or raised. *)
Fixpoint run_tasks (schedule : list nat) (server_names : list string)
  (self : MCPServerManager) (w : World)
  (log : list (nat * PyResult MCPClientSession))
  : list (nat * PyResult MCPClientSession) * MCPServerManager * World :=
  match schedule with
  | [] => (log, self, w)
  | i :: rest =>
      match nth_error server_names i with
      | Some name =>
          let '(r, self, w) := start_server self name w in
          run_tasks rest server_names self w (log ++ [(i, r)])
      | None => run_tasks rest server_names self w log
      end
  end.

(** The result of task [i] in the log. *)
Definition task_result (log : list (nat * PyResult MCPClientSession)) (i : nat)
  : option (PyResult MCPClientSession) :=
  option_map snd (find (fun entry => Nat.eqb (fst entry) i) log).

(** [results]: one entry per task, in task order. *)
Definition gathered (server_names : list string)
  (log : list (nat * PyResult MCPClientSession))
  : list (option (PyResult MCPClientSession)) :=
  map (task_result log) (seq 0 (List.length server_names)).

(** The loop that collects [(name, result)] for every exception among the results. *)
Definition collect_errors (server_names : list string)
  (results : list (option (PyResult MCPClientSession))) : list (string * PyExn) :=
  fold_left
    (fun (errors : list (string * PyExn)) item =>
       match snd item with
       | Some (Raise e) =>
           if isinstance e Exception then (errors ++ [(fst item, e)])%list else errors
       | _ => errors
       end)
    (combine server_names results) [].

Definition error_msg (item : string * PyExn) : string :=
  fst item ++ ": " ++ exc_str (snd item).

Definition _start_servers_parallel (self : MCPServerManager)
  (server_names : list string) (schedule : list nat) (w : World)
  : PyResult (Dict MCPClientSession) * MCPServerManager * World :=
  let '(log, self, w) := run_tasks schedule server_names self w [] in
  let results := gathered server_names log in
  let errors := collect_errors server_names results in
  match errors with
  | [] => (Return (_sessions self), self, w)
  | _ =>
      let '(self, w) := stop_all_servers self w in
      let error_msgs := map error_msg errors in
      (Raise (mkExn ConnectionError
                ("Failed to start " ++ str_of_nat (List.length errors) ++ " server(s):"
                   ++ newline ++ join newline error_msgs)),
       self, w)
  end.

Definition start_all_servers (self : MCPServerManager) (parallel : bool)
  (schedule : list nat) (w : World)
  : PyResult (Dict MCPClientSession) * MCPServerManager * World :=
  match Config.servers (_config self) with
  | [] => (Return [], self, w)
  | _ =>
      let server_names := server_names self in
      if parallel then _start_servers_parallel self server_names schedule w
      else _start_servers_sequential self server_names w
  end.

Definition get_session (self : MCPServerManager) (server_name : string)
  : option MCPClientSession :=
  match dict_get (_sessions self) server_name with
  | Some session => if is_connected session then Some session else None
  | None => None
  end.

Definition get_default_session (self : MCPServerManager) : option MCPClientSession :=
  match Config.servers (_config self) with
  | [] => None
  | first :: _ => get_session self (Config.name first)
  end.

End Methods.
End Manager.

(* ===================================================================== *)
(** ** Drivers: sequences of operations on one [ToolCaller] *)
(* ===================================================================== *)
Module Driver.
Import Session Caller.

Section Ops.
Context `{RT : PyRuntime} `{TR : Transport}.

(** The arguments and the timeout [call] passes on to the session. *)
Definition passed_arguments (arguments : option (Dict PyValue)) : Dict PyValue :=
  match arguments with Some a => a | None => [] end.

Definition passed_timeout (self : ToolCaller) (timeout : option float) : float :=
  match timeout with Some t => t | None => _default_timeout self end.

(** What the session answers to the call that [call] issues in world [w]. *)
Definition session_answer (self : ToolCaller) (tool_name : string)
  (arguments : option (Dict PyValue)) (timeout : option float) (w : World)
  : PyResult CallToolResult * World :=
  call_tool (_session self) tool_name (Some (passed_arguments arguments))
    (Some (passed_timeout self timeout)) (snd (perf_counter w)).

(** The elapsed time [call] measures around an answer that leaves world [w1]. *)
Definition measured (w w1 : World) : float :=
  PrimFloat.sub (fst (perf_counter w1)) (fst (perf_counter w)).

(** The arguments of one [call]. *)
Record CallArgs : Type := mkCallArgs {
  tool : string;
  args : option (Dict PyValue);
  timeout : option float;
  expect_error : bool
}.

(** What test code does with a [ToolCaller], [clear_history] apart.
    [SessionTouched] stands for other code acting on the session object the
    caller shares with the manager (a connect or disconnect between two
    calls).  [wait_for_condition] polls a predicate of the test against the
    clock and reads no field of the caller; it is not among the operations. *)
Inductive Op : Type :=
| DoCall (c : CallArgs)
| DoCallAndAssert (tool : string) (args : option (Dict PyValue))
    (assertions : option (list Assertions.BaseAssertion)) (timeout : option float)
| DoListTools
| DoGetLastCall
| DoGetCallsForTool (tool : string)
| DoCallHistory
| SessionTouched (session : MCPClientSession).

Definition step (st : ToolCaller * World) (op : Op) : ToolCaller * World :=
  let '(self, w) := st in
  match op with
  | DoCall c =>
      let '(_, self, w) := call self (tool c) (args c) (timeout c) (expect_error c) w in
      (self, w)
  | DoCallAndAssert t a assertions tm =>
      let '(_, self, w) := call_and_assert self t a assertions tm w in
      (self, w)
  | DoListTools => (self, snd (list_tools self w))
  | DoGetLastCall => let _ := get_last_call self in (self, w)
  | DoGetCallsForTool t => let _ := get_calls_for_tool self t in (self, w)
  | DoCallHistory => let _ := call_history self in (self, w)
  | SessionTouched session =>
      (mkToolCaller _ session (_default_timeout self) (_call_history self), w)
  end.

Definition run (ops : list Op) (st : ToolCaller * World) : ToolCaller * World :=
  fold_left step ops st.

(** The tool names of the calls an operation issues. *)
Definition issued (op : Op) : list string :=
  match op with
  | DoCall c => [tool c]
  | DoCallAndAssert t _ _ _ => [t]
  | _ => []
  end.

End Ops.
End Driver.

(* ===================================================================== *)
(** ** A scripted runtime and transport, for concrete runs *)
(* ===================================================================== *)
Module Scripted.

(** A regular-expression engine for patterns without metacharacters: a
    search is a substring test, on lower-cased text under [re.IGNORECASE]. *)
Definition literal_search (pattern : string) (flags : Z) (s : string) : bool :=
  if Z.testbit flags 1 then
    str_in (Assertions.ResultContainsAssertion.lower pattern)
      (Assertions.ResultContainsAssertion.lower s)
  else str_in pattern s.

Lemma literal_search_empty : forall flags s, literal_search "" flags s = true.
Proof.
  intros flags s. unfold literal_search.
  destruct (Z.testbit flags 1); simpl.
  - destruct (Assertions.ResultContainsAssertion.lower s); reflexivity.
  - destruct s; reflexivity.
Qed.

(** Floats are shown by a placeholder: no concrete run depends on their digits. *)
#[export] Instance runtime : PyRuntime := {
  float_str := fun _ => "<float>";
  float_fmt2 := fun _ => "<float>";
  re_search := literal_search;
  re_search_empty := literal_search_empty
}.

(** The scripted world: a clock that advances by one second per reading, and
    the answers the transport will give, in order. *)
Record world : Type := mkWorld {
  now : float;
  next_resource : nat;
  opens : list (OpenOutcome nat);
  calls : list (Awaited CallToolResult);
  close_expiries : list bool
}.

Definition start (opens : list (OpenOutcome nat)) (calls : list (Awaited CallToolResult))
  (close_expiries : list bool) : world :=
  mkWorld 0%float 0 opens calls close_expiries.

#[export] Instance transport : Transport := {
  World := world;
  Resource := nat;
  os_environ := fun _ => [("PATH", "/usr/bin")];
  perf_counter := fun w =>
    (now w,
     mkWorld (PrimFloat.add (now w) 1%float) (next_resource w) (opens w) (calls w)
       (close_expiries w));
  new_exit_stack := fun w =>
    (next_resource w,
     mkWorld (now w) (S (next_resource w)) (opens w) (calls w) (close_expiries w));
  open_session := fun _ _ _ w =>
    match opens w with
    | o :: rest =>
        (o, mkWorld (now w) (next_resource w) rest (calls w) (close_expiries w))
    | [] => (OpenFailed AtStdioClient (Raised (mkExn OSError "no such file")), w)
    end;
  rpc_call_tool := fun _ _ _ _ w =>
    match calls w with
    | a :: rest =>
        (a, mkWorld (now w) (next_resource w) (opens w) rest (close_expiries w))
    | [] => (Finished (Raise (mkExn RuntimeError "connection closed")), w)
    end;
  rpc_list_tools := fun _ w => (Return [], w);
  aclose := fun _ w => (Return tt, w);
  aclose_expires := fun _ _ w =>
    match close_expiries w with
    | true :: rest =>
        Some (mkWorld (now w) (next_resource w) (opens w) (calls w) rest)
    | _ => None
    end
}.

(** A server configuration and a session connected through resource [7]. *)
Definition server (server_name : string) : Config.ServerConfig :=
  Config.mkServerConfig server_name "python" ["server.py"] [] None 30%float 10%float.

Definition connected_session : Session.MCPClientSession :=
  Session.mkSession _ (server "echo") (Some 7) (Some 6) (Some 4) (Some 5).

Definition caller : Caller.ToolCaller := Caller.new connected_session 30%float.

(** The outcome of a failed call whose error text is ["boom"]. *)
Definition failed_outcome : ToolCallResult :=
  Outcome.new "fail" [] (mkCallToolResult [TextContent "boom"] true) 1%float false
    (Some "boom").

(** Three configured servers, and a manager for them. *)
Definition three_servers : Config.MCPTestConfig :=
  Config.mkMCPTestConfig [server "alpha"; server "beta"; server "gamma"]
    30%float "INFO" true true true.

Definition manager : Manager.MCPServerManager := Manager.new three_servers.

(** A world in which the first two connection attempts succeed and the third
    fails while entering [stdio_client]. *)
Definition third_open_fails : world :=
  start [Opened 1 2 3; Opened 4 5 6;
         OpenFailed AtStdioClient (Raised (mkExn OSError "no such file"))]
    [] [].

(** An error result whose first block bears no text. *)
Definition error_result : CallToolResult :=
  mkCallToolResult [OpaqueContent "image"; TextContent "boom"; TextContent "more"] true.

(** An exception of the transport. *)
Definition broken_pipe : PyExn := mkExn RuntimeError "pipe closed".

(** The world after one scripted call answered at clock reading [1]. *)
Definition after_call : world := mkWorld 1%float 0 [] [] [].

(** A tool that answers with an error flag and an empty text block. *)
Definition silent_failure : CallToolResult := mkCallToolResult [TextContent ""] true.

End Scripted.

(* ===================================================================== *)
(** ** [ToolCaller.wait_for_condition] (client/tool_caller.py) *)
(* ===================================================================== *)
Module Polling.

(** [asyncio.sleep(seconds)] *)
Class EventLoop `{Transport} : Type := {
  asyncio_sleep : float -> World -> World
}.

Section Methods.
Context `{TR : Transport} `{EL : @EventLoop TR}.

(** The predicate the test supplies: it may raise, and it may act on the world. *)
Definition Condition : Type := World -> PyResult bool * World.

(** The [while] loop of [wait_for_condition].  The loop has no bound of its
    own; [fuel] bounds the number of polls, and [None] is a loop that has
    not ended within it. *)
Fixpoint wait_loop (fuel : nat) (condition : Condition)
  (timeout poll_interval start_time : float) (w : World) : option (bool * World) :=
  match fuel with
  | O => None
  | S fuel =>
      let '(now, w) := perf_counter w in
      if PrimFloat.ltb (PrimFloat.sub now start_time) timeout then
        match condition w with
        | (Return true, w) => Some (true, w)
        | (Return false, w) | (Raise _, w) =>
            (* an [Exception] of the predicate is ignored *)
            wait_loop fuel condition timeout poll_interval start_time
              (asyncio_sleep poll_interval w)
        end
      else Some (false, w)
  end.

Definition wait_for_condition (fuel : nat) (condition : Condition)
  (timeout poll_interval : float) (w : World) : option (bool * World) :=
  let '(start_time, w) := perf_counter w in
  wait_loop fuel condition timeout poll_interval start_time w.

(** The predicate that answers [False] where [condition] raises. *)
Definition quiet (condition : Condition) : Condition :=
  fun w =>
    match condition w with
    | (Raise _, w') => (Return false, w')
    | answer => answer
    end.

End Methods.

(** On the scripted transport a sleep changes nothing: its clock advances
    by one second at each reading. *)
#[export] Instance scripted_loop : @EventLoop Scripted.transport := {
  asyncio_sleep := fun _ w => w
}.

End Polling.

(* ===================================================================== *)
(** ** Scenarios on the scripted transport *)
(* ===================================================================== *)
Module Scenarios.
Import Scripted.

(** A world with one connection attempt that succeeds, and the world after it. *)
Definition one_open : world := start [Opened 1 2 3] [] [].

Definition after_open : world := mkWorld 0%float 1 [] [] [].

(** The session of server alpha once connected in [one_open]. *)
Definition alpha_session : Session.MCPClientSession :=
  Session.mkSession transport (server "alpha") (Some 3) (Some 0) (Some 1) (Some 2).

(** The manager of the three servers after alpha was started. *)
Definition alpha_started : Manager.MCPServerManager :=
  Manager.mkManager transport three_servers
    [("alpha", alpha_session)] [("alpha", Manager.mkLock)].

(** The manager after an attempt to start alpha that failed. *)
Definition alpha_failed : Manager.MCPServerManager :=
  Manager.mkManager transport three_servers [] [("alpha", Manager.mkLock)].

(** The manager after alpha was started and an attempt to start beta failed,
    and the world then. *)
Definition beta_failed : Manager.MCPServerManager :=
  Manager.mkManager transport three_servers
    [("alpha", alpha_session)] [("alpha", Manager.mkLock); ("beta", Manager.mkLock)].

Definition after_two_attempts : world := mkWorld 0%float 2 [] [] [].

(** A session of a server whose configuration sets two variables, one of
    them also set in the inherited environment. *)
Definition overlay_session : Session.MCPClientSession :=
  Session.new
    (Config.mkServerConfig "echo" "python" ["server.py"]
       [("PATH", "/opt/bin"); ("MODE", "test")] None 30%float 10%float).

(** A world in which three connection attempts succeed. *)
Definition three_opens : world :=
  start [Opened 1 2 3; Opened 4 5 6; Opened 7 8 9] [] [].

(** The error of a connection attempt that finds no executable. *)
Definition no_such_file (server_name : string) : PyExn :=
  mkExn ConnectionError
    ("Failed to connect to MCP server '" ++ server_name ++ "': no such file").

End Scenarios.

(* ===================================================================== *)
(** ** A transport that records which exit stacks were closed *)
(* ===================================================================== *)
Module Recorded.

(** The world: the next resource number, the answers to the connection
    attempts to come, the exit stacks closed so far in the order of their
    closing, and whether the closes to come pass their deadline. *)
Record world : Type := mkWorld {
  next_resource : nat;
  opens : list (OpenOutcome nat);
  closed : list nat;
  close_expiries : list bool
}.

#[export] Instance transport : Transport := {
  World := world;
  Resource := nat;
  os_environ := fun _ => [];
  perf_counter := fun w => (0%float, w);
  new_exit_stack := fun w =>
    (next_resource w,
     mkWorld (S (next_resource w)) (opens w) (closed w) (close_expiries w));
  open_session := fun _ _ _ w =>
    match opens w with
    | o :: rest => (o, mkWorld (next_resource w) rest (closed w) (close_expiries w))
    | [] => (OpenFailed AtStdioClient (Raised (mkExn OSError "no such file")), w)
    end;
  rpc_call_tool := fun _ _ _ _ w =>
    (Finished (Raise (mkExn RuntimeError "connection closed")), w);
  rpc_list_tools := fun _ w => (Return [], w);
  aclose := fun stack w =>
    (Return tt,
     mkWorld (next_resource w) (opens w) (closed w ++ [stack]) (close_expiries w));
  aclose_expires := fun _ _ w =>
    match close_expiries w with
    | true :: rest => Some (mkWorld (next_resource w) (opens w) (closed w) rest)
    | _ => None
    end
}.

(** The manager of the three servers, and a world in which the first two
    connection attempts succeed, the third finds no executable, and the
    first close of the rollback passes its deadline. *)
Definition manager : Manager.MCPServerManager := Manager.new Scripted.three_servers.

Definition third_open_fails : world :=
  mkWorld 0
    [Opened 11 12 13; Opened 21 22 23;
     OpenFailed AtStdioClient (Raised (mkExn OSError "no such file"))]
    [] [false; true].

End Recorded.

(* ===================================================================== *)
(** ** Vocabulary of the properties *)
(* ===================================================================== *)
Module Spec.
Import Assertions.

(** The text a content block bears, if any. *)
Definition text_of (c : ContentBlock) : option string :=
  match c with
  | TextContent t => Some t
  | DuckText t => Some t
  | OpaqueContent _ => None
  end.

(** The texts of the text-bearing blocks, in block order. *)
Definition texts (blocks : list ContentBlock) : list string :=
  flat_map (fun c => match text_of c with Some t => [t] | None => [] end) blocks.

(** The first text-bearing block's text. *)
Definition first_text (blocks : list ContentBlock) : option string :=
  hd_error (texts blocks).

(** The assertions of a list that fail on an outcome, in list order. *)
Definition failing (assertions : list BaseAssertion) (o : ToolCallResult)
  : list BaseAssertion :=
  filter (fun a => negb (passed (check a o))) assertions.

(** The tasks that raised, each with its server name, in task order. *)
Definition failures {S : Type} (server_names : list string)
  (results : list (option (PyResult S))) : list (string * PyExn) :=
  flat_map
    (fun item =>
       match snd item with
       | Some (Raise e) => [(fst item, e)]
       | _ => []
       end)
    (combine server_names results).

End Spec.

(* ===================================================================== *)
(** ** Vocabulary of the rollback *)
(* ===================================================================== *)
Module Teardown.

Section Release.
Context {TR : Transport}.



End Release.
End Teardown.

(* ===================================================================== *)
(** ** Facts about strings, lists and dicts *)
(* ===================================================================== *)
Module Facts.

Lemma append_assoc : forall a b c : string, (a ++ b) ++ c = a ++ (b ++ c).
Proof. induction a as [|x a IH]; intros b c; simpl; [reflexivity | now rewrite IH]. Qed.

Lemma append_nil_r : forall a : string, a ++ "" = a.
Proof. induction a as [|x a IH]; simpl; [reflexivity | now rewrite IH]. Qed.

Lemma prefix_iff : forall sub s,
  String.prefix sub s = true <-> exists b, s = sub ++ b.
Proof.
  induction sub as [|x sub IH]; intros s.
  - split; [intros _; now exists s | intros _; destruct s; reflexivity].
  - destruct s as [|y s]; simpl.
    + split; [discriminate | intros [b Hb]; discriminate].
    + destruct (ascii_dec x y) as [->|Hne].
      * rewrite IH. split; intros [b Hb]; exists b; [now rewrite Hb | now inversion Hb].
      * split; [discriminate | intros [b Hb]; inversion Hb; congruence].
Qed.

Lemma str_in_unfold : forall sub s,
  str_in sub s =
  if String.prefix sub s then true
  else match s with
       | EmptyString => false
       | String _ rest => str_in sub rest
       end.
Proof. intros sub s; destruct s; reflexivity. Qed.

Lemma str_in_iff : forall sub s,
  str_in sub s = true <-> exists a b, s = a ++ sub ++ b.
Proof.
  intros sub s; induction s as [|y s IH]; rewrite str_in_unfold.
  - destruct (String.prefix sub "") eqn:P.
    + split; [intros _ | reflexivity].
      apply prefix_iff in P. destruct P as [b Hb]. now exists "", b.
    + split; [discriminate | intros [a [b Hab]]].
      destruct a; simpl in Hab.
      * assert (String.prefix sub "" = true) by (apply prefix_iff; now exists b).
        congruence.
      * discriminate.
  - destruct (String.prefix sub (String y s)) eqn:P.
    + split; [intros _ | reflexivity].
      apply prefix_iff in P. destruct P as [b Hb]. now exists "", b.
    + rewrite IH. split.
      * intros [a [b Hab]]. exists (String y a), b. simpl. now rewrite Hab.
      * intros [a [b Hab]]. destruct a as [|z a]; simpl in Hab.
        -- assert (String.prefix sub (String y s) = true)
             by (apply prefix_iff; now exists b).
           congruence.
        -- inversion Hab. now exists a, b.
Qed.

Lemma str_in_mid : forall a sub b, str_in sub (a ++ sub ++ b) = true.
Proof. intros. apply str_in_iff. now exists a, b. Qed.

Lemma str_in_trans : forall a b c,
  str_in a b = true -> str_in b c = true -> str_in a c = true.
Proof.
  intros a b c Hab Hbc.
  apply str_in_iff in Hab. destruct Hab as [p [q ->]].
  apply str_in_iff in Hbc. destruct Hbc as [r [t ->]].
  apply str_in_iff. exists (r ++ p), (q ++ t).
  now rewrite !append_assoc.
Qed.

Lemma str_in_join : forall sep l x, In x l -> str_in x (join sep l) = true.
Proof.
  intros sep l x. unfold join. induction l as [|y l IH]; intros Hin; [contradiction|].
  destruct Hin as [->|Hin].
  - destruct l as [|z l]; simpl.
    + apply str_in_iff. exists "", "". simpl. now rewrite append_nil_r.
    + apply (str_in_mid "").
  - specialize (IH Hin). destruct l as [|z l]; [contradiction|].
    change (String.concat sep (y :: z :: l))
      with (y ++ sep ++ String.concat sep (z :: l)).
    apply str_in_iff in IH. destruct IH as [a [b Hab]].
    apply str_in_iff. exists (y ++ sep ++ a), b.
    rewrite Hab. now rewrite !append_assoc.
Qed.

Lemma truthy_false : forall s, truthy s = false <-> s = "".
Proof.
  intros s. unfold truthy. destruct (String.eqb_spec s ""); simpl; split; congruence.
Qed.

(** An appending loop that keeps some items equals a [flat_map]. *)
Lemma fold_left_append : forall {A B} (f : A -> list B) (l : list A) (acc : list B),
  fold_left (fun acc x => (acc ++ f x)%list) l acc = (acc ++ flat_map f l)%list.
Proof.
  intros A B f l; induction l as [|x l IH]; intros acc; simpl.
  - now rewrite app_nil_r.
  - rewrite IH. now rewrite app_assoc.
Qed.

Lemma filter_map_comm : forall {A B} (f : B -> bool) (g : A -> B) (l : list A),
  filter f (map g l) = map g (filter (fun a => f (g a)) l).
Proof.
  intros A B f g l; induction l as [|x l IH]; simpl; [reflexivity|].
  destruct (f (g x)); simpl; now rewrite IH.
Qed.

Lemma forallb_over_map : forall {A B} (f : B -> bool) (g : A -> B) (l : list A),
  forallb f (map g l) = forallb (fun a => f (g a)) l.
Proof.
  intros A B f g l; induction l as [|x l IH]; simpl; [reflexivity | now rewrite IH].
Qed.

Lemma existsb_over_map : forall {A B} (f : B -> bool) (g : A -> B) (l : list A),
  existsb f (map g l) = existsb (fun a => f (g a)) l.
Proof.
  intros A B f g l; induction l as [|x l IH]; simpl; [reflexivity | now rewrite IH].
Qed.

Lemma dict_del_absent : forall {V} (d : Dict V) k,
  dict_get d k = None -> dict_del d k = d.
Proof.
  intros V d k. unfold dict_get, dict_del.
  induction d as [|[k' v] d IH]; simpl; [reflexivity|].
  destruct (String.eqb k' k); simpl; [discriminate|].
  intros H. now rewrite IH.
Qed.

Lemma dict_del_keys : forall {V} (d : Dict V) k k',
  In k' (dict_keys (dict_del d k)) -> k' <> k /\ In k' (dict_keys d).
Proof.
  intros V d k k'. unfold dict_keys, dict_del. rewrite !in_map_iff.
  intros [[k0 v] [Hk Hin]]. simpl in Hk. subst k0.
  apply filter_In in Hin. destruct Hin as [Hin Hne]. simpl in Hne.
  split.
  - intros ->. now rewrite String.eqb_refl in Hne.
  - now exists (k', v).
Qed.

Lemma fold_dict_del_all : forall {V} (ks : list string) (d : Dict V),
  (forall k, In k (dict_keys d) -> In k ks) ->
  fold_left dict_del ks d = [].
Proof.
  intros V ks; induction ks as [|k ks IH]; intros d Hsub; simpl.
  - destruct d as [|[k v] d]; [reflexivity|].
    exfalso. apply (Hsub k). now left.
  - apply IH. intros k' Hin. apply dict_del_keys in Hin. destruct Hin as [Hne Hin].
    destruct (Hsub k' Hin) as [->|H]; [contradiction | exact H].
Qed.

End Facts.

(* ===================================================================== *)
(** ** Text extraction *)
(* ===================================================================== *)
Import Assertions.

Lemma text_loop_texts : forall blocks acc,
  fold_left append_text blocks acc = (acc ++ Spec.texts blocks)%list.
Proof.
  induction blocks as [|c blocks IH]; intros acc; simpl.
  - now rewrite app_nil_r.
  - rewrite IH. destruct c; simpl; rewrite <- ?app_assoc; reflexivity.
Qed.

Lemma text_of_fresh : forall n a r d s m,
  Outcome.text (Outcome.new n a r d s m) = join newline (Spec.texts (content r)).
Proof.
  intros n a r d s m. unfold Outcome.text, text_content, Outcome.new.
  cbn [_text_content result].
  destruct (content r) as [|c blocks] eqn:E; [reflexivity|].
  cbn [fst]. rewrite text_loop_texts. reflexivity.
Qed.

(** Reading the property a second time returns the cached string. *)
Lemma text_content_cached : forall o,
  content (result o) <> [] ->
  _text_content (snd (text_content o)) = Some (Outcome.text o).
Proof.
  intros o Hne. unfold Outcome.text, text_content.
  destruct (_text_content o) eqn:E; simpl; [exact E|].
  destruct (content (result o)); [contradiction | reflexivity].
Qed.

Lemma text_content_stable : forall o,
  Outcome.text (snd (text_content o)) = Outcome.text o.
Proof.
  intros o. unfold Outcome.text, text_content.
  destruct (_text_content o) eqn:E; simpl.
  - now rewrite E.
  - destruct (content (result o)) eqn:C; simpl.
    + now rewrite E, C.
    + reflexivity.
Qed.

(** C8: the text content of an outcome is the newline-joined text of all
    text-bearing content blocks in block order; no text-bearing block is
    dropped; it is the empty string when there are no content blocks; the
    blocks "Echo: " and "Hello, MCP!" give "Echo: \nHello, MCP!". *)
Theorem text_content_joins_text_blocks :
  forall (n : string) (a : Dict PyValue) (r : CallToolResult) (d : float)
         (s : bool) (m : option string),
    Outcome.text (Outcome.new n a r d s m) = join newline (Spec.texts (content r))
    /\ (forall c t, In c (content r) -> Spec.text_of c = Some t ->
                    In t (Spec.texts (content r)))
    /\ Outcome.text (Outcome.new n a (mkCallToolResult [] (isError r)) d s m) = ""
    /\ Outcome.text
         (Outcome.new n a
            (mkCallToolResult [TextContent "Echo: "; TextContent "Hello, MCP!"] (isError r))
            d s m)
       = "Echo: " ++ newline ++ "Hello, MCP!".
Proof.
  intros n a r d s m. split; [|split; [|split]].
  - apply text_of_fresh.
  - intros c t Hin Ht. unfold Spec.texts. apply in_flat_map.
    exists c. split; [exact Hin|]. rewrite Ht. now left.
  - rewrite text_of_fresh. reflexivity.
  - rewrite text_of_fresh. reflexivity.
Qed.

(* ===================================================================== *)
(** ** Assertions *)
(* ===================================================================== *)

Lemma composite_all_passed : forall l o,
  passed (CompositeAssertion.check (CompositeAssertion.AllOf l) o)
  = forallb (fun a => passed (check a o)) l.
Proof.
  intros l o. unfold CompositeAssertion.check, CompositeAssertion.AllOf.
  cbn [CompositeAssertion._operator CompositeAssertion._assertions].
  change ("and" =? "and") with true. cbv iota.
  rewrite Facts.forallb_over_map.
  destruct (forallb (fun a => passed (check a o)) l) eqn:E; reflexivity.
Qed.

Lemma composite_any_passed : forall l o,
  passed (CompositeAssertion.check (CompositeAssertion.AnyOf l) o)
  = existsb (fun a => passed (check a o)) l.
Proof.
  intros l o. unfold CompositeAssertion.check, CompositeAssertion.AnyOf.
  cbn [CompositeAssertion._operator CompositeAssertion._assertions].
  change ("or" =? "and") with false. cbv iota.
  rewrite Facts.existsb_over_map.
  destruct (existsb (fun a => passed (check a o)) l) eqn:E; reflexivity.
Qed.

(** The message of a failed AND composite. *)
Lemma composite_all_message : forall l o,
  passed (CompositeAssertion.check (CompositeAssertion.AllOf l) o) = false ->
  message (CompositeAssertion.check (CompositeAssertion.AllOf l) o)
  = str_of_nat (List.length (Spec.failing l o)) ++ " assertion(s) failed:" ++ newline
      ++ join newline (map (fun a => "- " ++ message (check a o)) (Spec.failing l o)).
Proof.
  intros l o H. rewrite composite_all_passed in H.
  unfold CompositeAssertion.check, CompositeAssertion.AllOf.
  cbn [CompositeAssertion._operator CompositeAssertion._assertions].
  change ("and" =? "and") with true. cbv iota.
  rewrite Facts.forallb_over_map, H. cbn [message verdict].
  rewrite (Facts.filter_map_comm (fun r => negb (passed r))).
  rewrite length_map, map_map. reflexivity.
Qed.

(** The message of a failed OR composite. *)
Lemma composite_any_message : forall l o,
  passed (CompositeAssertion.check (CompositeAssertion.AnyOf l) o) = false ->
  message (CompositeAssertion.check (CompositeAssertion.AnyOf l) o)
  = "None of " ++ str_of_nat (List.length l) ++ " assertions passed:" ++ newline
      ++ join newline (map (fun a => "- " ++ message (check a o)) l).
Proof.
  intros l o H. rewrite composite_any_passed in H.
  unfold CompositeAssertion.check, CompositeAssertion.AnyOf.
  cbn [CompositeAssertion._operator CompositeAssertion._assertions].
  change ("or" =? "and") with false. cbv iota.
  rewrite Facts.existsb_over_map, H. cbn [message verdict].
  rewrite map_map. reflexivity.
Qed.

(** A bullet of a joined list is part of any text that ends with the list. *)
Lemma bullet_listed : forall (head : string) (items : list string) (m : string),
  In ("- " ++ m) items ->
  str_in m (head ++ join newline items) = true.
Proof.
  intros head items m Hin.
  apply Facts.str_in_trans with (b := "- " ++ m).
  - apply Facts.str_in_iff. exists "- ", "". now rewrite Facts.append_nil_r.
  - apply Facts.str_in_trans with (b := join newline items).
    + now apply Facts.str_in_join.
    + apply Facts.str_in_iff. exists head, "". now rewrite Facts.append_nil_r.
Qed.

(** C6, as stated, fails: the message of a failed AND composite lists the
    failing inner check's message ("Tool call should succeed"), and the inner
    check's description ("Tool call succeeds") is not in it. *)
Lemma composite_message_omits_description :
  passed (check SuccessAssertion.new Scripted.failed_outcome) = false
  /\ passed (CompositeAssertion.check
               (CompositeAssertion.AllOf [SuccessAssertion.new])
               Scripted.failed_outcome) = false
  /\ message (CompositeAssertion.check
                (CompositeAssertion.AllOf [SuccessAssertion.new])
                Scripted.failed_outcome)
     = "1 assertion(s) failed:" ++ newline ++ "- Tool call should succeed"
  /\ description SuccessAssertion.new = "Tool call succeeds"
  /\ str_in (description SuccessAssertion.new)
       (message (CompositeAssertion.check
                   (CompositeAssertion.AllOf [SuccessAssertion.new])
                   Scripted.failed_outcome)) = false.
Proof. vm_compute. repeat split. Qed.

(** C6, amended: a Composite with operator AND passes iff all inner checks
    pass, and its failure message lists the message (not the description) of
    every failing inner check; with operator OR it passes iff at least one
    inner check passes, and on failure its message lists the messages of all
    inner checks. *)
Theorem composite_check_spec :
  forall (l : list BaseAssertion) (o : ToolCallResult),
    let all := CompositeAssertion.check (CompositeAssertion.AllOf l) o in
    let any := CompositeAssertion.check (CompositeAssertion.AnyOf l) o in
    (passed all = true <-> Forall (fun a => passed (check a o) = true) l)
    /\ (passed all = false ->
        message all
        = str_of_nat (List.length (Spec.failing l o)) ++ " assertion(s) failed:"
            ++ newline
            ++ join newline (map (fun a => "- " ++ message (check a o)) (Spec.failing l o))
        /\ forall a, In a l -> passed (check a o) = false ->
                     str_in (message (check a o)) (message all) = true)
    /\ (passed any = true <-> Exists (fun a => passed (check a o) = true) l)
    /\ (passed any = false ->
        message any
        = "None of " ++ str_of_nat (List.length l) ++ " assertions passed:" ++ newline
            ++ join newline (map (fun a => "- " ++ message (check a o)) l)
        /\ forall a, In a l -> str_in (message (check a o)) (message any) = true).
Proof.
  intros l o all any. subst all any. split; [|split; [|split]].
  - rewrite composite_all_passed, forallb_forall, Forall_forall. reflexivity.
  - intros H. split; [now apply composite_all_message|].
    intros a Hin Hfail. rewrite (composite_all_message l o H).
    rewrite <- !Facts.append_assoc.
    apply bullet_listed.
    apply (in_map (fun a => "- " ++ message (check a o))).
    apply filter_In. split; [exact Hin | now rewrite Hfail].
  - rewrite composite_any_passed, existsb_exists, Exists_exists. reflexivity.
  - intros H. split; [now apply composite_any_message|].
    intros a Hin. rewrite (composite_any_message l o H).
    rewrite <- !Facts.append_assoc.
    apply bullet_listed.
    now apply (in_map (fun a => "- " ++ message (check a o))).
Qed.

(** The verdict of an [ErrorAssertion], by cases. *)
Lemma error_assertion_passed `{PyRuntime} : forall error_pattern o,
  passed (ErrorAssertion.check (ErrorAssertion.new error_pattern) o)
  = negb (success o)
    && (if truthy_opt error_pattern && truthy_opt (error_message o)
        then re_search (fmt_opt error_pattern) IGNORECASE (fmt_opt (error_message o))
        else true).
Proof.
  intros error_pattern o. unfold ErrorAssertion.check, ErrorAssertion.new.
  cbn [ErrorAssertion._pattern ErrorAssertion._pattern_str].
  destruct (success o); [reflexivity|].
  destruct error_pattern as [p|]; cbn [truthy_opt andb negb]; [|reflexivity].
  destruct (truthy p); cbn [andb]; [|reflexivity].
  destruct (truthy_opt (error_message o)); [|reflexivity].
  cbn [fmt_opt]. destruct (re_search p IGNORECASE (fmt_opt (error_message o))); reflexivity.
Qed.

(** C7, as stated, fails: a failed call whose error message is present but
    empty passes [ErrorAssertion("boom")], although "boom" does not match the
    empty message; the outcome is the one [call] records for a tool that
    answers with an error flag and an empty text block. *)
Lemma error_assertion_skips_empty_message :
  exists o : ToolCallResult,
    fst (fst (Caller.call (RT := Scripted.runtime) (TR := Scripted.transport)
                Scripted.caller "fail" None None false
                (Scripted.start [] [Finished (Return Scripted.silent_failure)] [])))
    = Return o
    /\ success o = false
    /\ error_message o = Some ""
    /\ @re_search Scripted.runtime "boom" IGNORECASE "" = false
    /\ passed (@ErrorAssertion.check Scripted.runtime
                 (ErrorAssertion.new (Some "boom")) o) = true.
Proof. eexists. vm_compute. repeat split. Qed.

(** C7, amended: an Error assertion passes iff the outcome's success flag is
    false and, when a pattern is supplied and the outcome carries a non-empty
    error message, the pattern matches that message by a case-insensitive
    regex search; an absent or empty error message imposes no further
    requirement. *)
Theorem error_assertion_spec `{PyRuntime} :
  forall (error_pattern : option string) (o : ToolCallResult),
    passed (ErrorAssertion.check (ErrorAssertion.new error_pattern) o) = true
    <-> success o = false
        /\ (forall p m, error_pattern = Some p -> error_message o = Some m -> m <> "" ->
                        re_search p IGNORECASE m = true).
Proof.
  intros error_pattern o. rewrite error_assertion_passed.
  destruct (success o); cbn [negb andb].
  - split; [discriminate | intros [? _]; discriminate].
  - destruct error_pattern as [p|]; cbn [truthy_opt andb fmt_opt].
    + destruct (truthy p) eqn:Tp; cbn [andb].
      * destruct (error_message o) as [m|]; cbn [truthy_opt fmt_opt].
        -- destruct (truthy m) eqn:Tm.
           ++ split.
              ** intros Hs. split; [reflexivity|]. intros p' m' Hp Hm _.
                 inversion Hp; inversion Hm; subst. exact Hs.
              ** intros [_ Hs]. apply Hs; [reflexivity | reflexivity |].
                 intros ->. discriminate.
           ++ apply Facts.truthy_false in Tm. subst m.
              split; [|reflexivity]. intros _. split; [reflexivity|].
              intros p' m' _ Hm Hne. inversion Hm. congruence.
        -- split; [|reflexivity]. intros _. split; [reflexivity|]. discriminate.
      * apply Facts.truthy_false in Tp. subst p.
        split; [|reflexivity]. intros _. split; [reflexivity|].
        intros p' m' Hp _ _. inversion Hp. apply re_search_empty.
    + split; [|reflexivity]. intros _. split; [reflexivity|]. discriminate.
Qed.

(* ===================================================================== *)
(** ** Tool calls: outcome classification *)
(* ===================================================================== *)
Section CallFacts.
Context `{RT : PyRuntime} `{TR : Transport}.
Import Session Caller Driver.

Lemma every_exception_is_Exception : forall e, isinstance e Exception = true.
Proof. intros [c m]. destruct c; reflexivity. Qed.

Lemma extract_error_message_first_text : forall r,
  _extract_error_message r
  = match Spec.first_text (content r) with Some t => t | None => "Unknown error" end.
Proof.
  intros r. unfold _extract_error_message, Spec.first_text.
  assert (Hloop : forall l : list ContentBlock,
    (fix loop (l : list ContentBlock) : string :=
       match l with
       | [] => "Unknown error"
       | TextContent t :: _ => t
       | DuckText t :: _ => t
       | OpaqueContent _ :: rest => loop rest
       end) l
    = match hd_error (Spec.texts l) with Some t => t | None => "Unknown error" end).
  { induction l as [|b l IH]; [reflexivity|].
    destruct b; simpl; [reflexivity | reflexivity | exact IH]. }
  destruct (content r) as [|c blocks]; [reflexivity | exact (Hloop (c :: blocks))].
Qed.

Lemma call_on_return : forall self tool_name arguments timeout (expect_error : bool) w
    result w1,
  session_answer self tool_name arguments timeout w = (Return result, w1) ->
  let o :=
    Outcome.new tool_name (passed_arguments arguments) result (measured w w1)
      (if expect_error then isError result else negb (isError result))
      (if expect_error
       then (if isError result then None else Some "Expected error but tool succeeded")
       else (if isError result then Some (_extract_error_message result) else None)) in
  call self tool_name arguments timeout expect_error w
  = (Return o, record_call self o, snd (perf_counter w1)).
Proof.
  intros self tool_name arguments timeout expect_error w result w1 H.
  unfold session_answer, measured in *. unfold call.
  destruct (perf_counter w) as [start w0]. cbn [fst snd] in *.
  fold (passed_arguments arguments). fold (passed_timeout self timeout).
  rewrite H. destruct (perf_counter w1) as [now w2]. cbn [fst snd].
  destruct expect_error; destruct (isError result); reflexivity.
Qed.

Lemma call_on_raise : forall self tool_name arguments timeout (expect_error : bool) w
    e w1,
  session_answer self tool_name arguments timeout w = (Raise e, w1) ->
  let o :=
    Outcome.new tool_name (passed_arguments arguments) (mkCallToolResult [] true)
      (measured w w1) expect_error
      (Some (if isinstance e TimeoutError then exc_str e
             else "Tool call failed: " ++ exc_str e)) in
  call self tool_name arguments timeout expect_error w
  = (Return o, record_call self o, snd (perf_counter w1)).
Proof.
  intros self tool_name arguments timeout expect_error w e w1 H.
  unfold session_answer, measured in *. unfold call.
  destruct (perf_counter w) as [start w0]. cbn [fst snd] in *.
  fold (passed_arguments arguments). fold (passed_timeout self timeout).
  rewrite H. rewrite every_exception_is_Exception.
  destruct (perf_counter w1) as [now w2]. cbn [fst snd].
  destruct (isinstance e TimeoutError); reflexivity.
Qed.

(** [call] always returns an outcome, named after the tool, and records it. *)
Lemma call_returns : forall self tool_name arguments timeout expect_error w,
  exists o w',
    call self tool_name arguments timeout expect_error w
    = (Return o, record_call self o, w')
    /\ Outcome.name o = tool_name.
Proof.
  intros self tool_name arguments timeout expect_error w.
  destruct (session_answer self tool_name arguments timeout w) as [[result|e] w1] eqn:E.
  - eexists; eexists. split;
      [apply (call_on_return _ _ _ _ expect_error _ _ _ E) | reflexivity].
  - eexists; eexists. split;
      [apply (call_on_raise _ _ _ _ expect_error _ _ _ E) | reflexivity].
Qed.

(** When the deadline of a tool call passes, the session raises a
    [TimeoutError] that describes the timeout. *)
Lemma call_tool_deadline :
  forall (self : MCPClientSession) tool_name arguments timeout w session w1,
  Session._session self = Some session ->
  rpc_call_tool session tool_name (passed_arguments arguments) timeout w = (Expired, w1) ->
  call_tool self tool_name arguments (Some timeout) w
  = (Raise (mkExn TimeoutError
              ("Tool call '" ++ tool_name ++ "' timed out after " ++ float_str timeout
                 ++ "s")), w1).
Proof.
  intros self tool_name arguments timeout w session w1 Hs Hr.
  unfold call_tool, _ensure_connected, is_connected. rewrite Hs. cbn [negb].
  fold (passed_arguments arguments). rewrite Hr. reflexivity.
Qed.

End CallFacts.

Section CallClaims.
Context `{RT : PyRuntime} `{TR : Transport}.
Import Session Caller Driver.

(** C1: when the session call raises a timeout or any other exception, [call]
    does not propagate it: it returns an outcome whose success flag equals
    [expect_error], whose error message is the timeout's description (for a
    timeout) or the exception text behind "Tool call failed: " (otherwise),
    and the outcome is appended to the call history. *)
Theorem call_captures_exceptions :
  forall (self : ToolCaller) (tool_name : string) (arguments : option (Dict PyValue))
         (timeout : option float) (expect_error : bool) (w : World)
         (e : PyExn) (w1 : World),
    session_answer self tool_name arguments timeout w = (Raise e, w1) ->
    exists (o : ToolCallResult) (self' : ToolCaller) (w' : World),
      call self tool_name arguments timeout expect_error w = (Return o, self', w')
      /\ success o = expect_error
      /\ error_message o
         = Some (if isinstance e TimeoutError then exc_str e
                 else "Tool call failed: " ++ exc_str e)
      /\ call_history self' = (call_history self ++ [o])%list.
Proof.
  intros self tool_name arguments timeout expect_error w e w1 H.
  eexists; eexists; eexists. split.
  - apply (call_on_raise _ _ _ _ expect_error _ _ _ H).
  - repeat split.
Qed.

(** C3: for a call that completes, with [expect_error] the outcome succeeds
    iff the result's [isError] flag is set, and an unexpected success carries
    the message "Expected error but tool succeeded"; without [expect_error]
    the outcome succeeds iff the flag is clear, and an error carries the text
    of the first text-bearing content block, or "Unknown error". *)
Theorem call_classifies_result :
  forall (self : ToolCaller) (tool_name : string) (arguments : option (Dict PyValue))
         (timeout : option float) (expect_error : bool) (w : World)
         (r : CallToolResult) (w1 : World),
    session_answer self tool_name arguments timeout w = (Return r, w1) ->
    exists (o : ToolCallResult) (self' : ToolCaller) (w' : World),
      call self tool_name arguments timeout expect_error w = (Return o, self', w')
      /\ result o = r
      /\ (expect_error = true ->
          success o = isError r
          /\ (isError r = false ->
              error_message o = Some "Expected error but tool succeeded"))
      /\ (expect_error = false ->
          success o = negb (isError r)
          /\ (isError r = true ->
              error_message o
              = Some (match Spec.first_text (content r) with
                      | Some t => t
                      | None => "Unknown error"
                      end))).
Proof.
  intros self tool_name arguments timeout expect_error w r w1 H.
  eexists; eexists; eexists. split.
  - apply (call_on_return _ _ _ _ expect_error _ _ _ H).
  - cbn [result success error_message Outcome.new]. split; [reflexivity|]. split.
    + intros ->. split; [reflexivity|]. now intros ->.
    + intros ->. split; [reflexivity|]. intros ->.
      now rewrite extract_error_message_first_text.
Qed.

Lemma str_in_empty : forall x, str_in x "" = true -> x = "".
Proof. intros x. destruct x; [reflexivity | discriminate]. Qed.

Lemma lower_empty : forall x, ResultContainsAssertion.lower x = "" -> x = "".
Proof. intros x. destruct x; [reflexivity | discriminate]. Qed.

(** C10: an outcome recorded for a call that raised carries the synthesized
    result with [isError] set and no content: it is an error, its text
    content is empty, and no non-empty text is found in it. *)
Theorem raised_call_has_empty_result :
  forall (self : ToolCaller) (tool_name : string) (arguments : option (Dict PyValue))
         (timeout : option float) (expect_error : bool) (w : World)
         (e : PyExn) (w1 : World),
    session_answer self tool_name arguments timeout w = (Raise e, w1) ->
    exists (o : ToolCallResult) (self' : ToolCaller) (w' : World),
      call self tool_name arguments timeout expect_error w = (Return o, self', w')
      /\ call_history self' = (call_history self ++ [o])%list
      /\ result o = mkCallToolResult [] true
      /\ is_error o = true
      /\ Outcome.text o = ""
      /\ (forall c : ResultContainsAssertion.t,
            ResultContainsAssertion._expected c <> "" ->
            passed (ResultContainsAssertion.check c o) = false).
Proof.
  intros self tool_name arguments timeout expect_error w e w1 H.
  eexists; eexists; eexists. split.
  - apply (call_on_raise _ _ _ _ expect_error _ _ _ H).
  - split; [reflexivity|]. split; [reflexivity|]. split; [reflexivity|].
    split; [reflexivity|].
    intros c Hne. unfold ResultContainsAssertion.check.
    change (Outcome.text _) with "".
    destruct (ResultContainsAssertion._case_sensitive c).
    + destruct (str_in (ResultContainsAssertion._expected c) "") eqn:E;
        [apply str_in_empty in E; contradiction | reflexivity].
    + change (ResultContainsAssertion.lower "") with "".
      destruct (str_in (ResultContainsAssertion.lower
                          (ResultContainsAssertion._expected c)) "") eqn:E;
        [apply str_in_empty, lower_empty in E; contradiction | reflexivity].
Qed.

End CallClaims.

(** C1 at a call whose deadline passes, with [expect_error] set. *)
Lemma call_captures_exceptions_witness :
  exists (o : ToolCallResult) (self' : Caller.ToolCaller) (w' : Scripted.world),
    Caller.call (RT := Scripted.runtime) (TR := Scripted.transport)
      Scripted.caller "slow" None (Some 5%float) true (Scripted.start [] [Expired] [])
    = (Return o, self', w')
    /\ success o = true
    /\ error_message o
       = Some (if isinstance
                    (mkExn TimeoutError "Tool call 'slow' timed out after <float>s")
                    TimeoutError
               then exc_str (mkExn TimeoutError "Tool call 'slow' timed out after <float>s")
               else "Tool call failed: "
                      ++ exc_str
                           (mkExn TimeoutError
                              "Tool call 'slow' timed out after <float>s"))
    /\ Caller.call_history self' = (Caller.call_history Scripted.caller ++ [o])%list.
Proof.
  apply (call_captures_exceptions (RT := Scripted.runtime) (TR := Scripted.transport)
           Scripted.caller "slow" None (Some 5%float) true
           (Scripted.start [] [Expired] [])
           (mkExn TimeoutError "Tool call 'slow' timed out after <float>s")
           (Scripted.mkWorld 1%float 0 [] [] [])).
  reflexivity.
Defined.

(** C3 at a call without [expect_error] that the tool answers with an error
    whose first block is an image. *)
Lemma call_classifies_result_witness :
  exists (o : ToolCallResult) (self' : Caller.ToolCaller) (w' : Scripted.world),
    Caller.call (RT := Scripted.runtime) (TR := Scripted.transport)
      Scripted.caller "fail" None None false
      (Scripted.start [] [Finished (Return Scripted.error_result)] [])
    = (Return o, self', w')
    /\ result o = Scripted.error_result
    /\ (false = true ->
        success o = isError Scripted.error_result
        /\ (isError Scripted.error_result = false ->
            error_message o = Some "Expected error but tool succeeded"))
    /\ (false = false ->
        success o = negb (isError Scripted.error_result)
        /\ (isError Scripted.error_result = true ->
            error_message o
            = Some (match Spec.first_text (content Scripted.error_result) with
                    | Some t => t
                    | None => "Unknown error"
                    end))).
Proof.
  apply (call_classifies_result (RT := Scripted.runtime) (TR := Scripted.transport)
           Scripted.caller "fail" None None false
           (Scripted.start [] [Finished (Return Scripted.error_result)] [])
           Scripted.error_result Scripted.after_call).
  reflexivity.
Defined.

(** C10 at a call during which the transport raises. *)
Lemma raised_call_has_empty_result_witness :
  exists (o : ToolCallResult) (self' : Caller.ToolCaller) (w' : Scripted.world),
    Caller.call (RT := Scripted.runtime) (TR := Scripted.transport)
      Scripted.caller "echo" None None false
      (Scripted.start [] [Finished (Raise Scripted.broken_pipe)] [])
    = (Return o, self', w')
    /\ Caller.call_history self' = (Caller.call_history Scripted.caller ++ [o])%list
    /\ result o = mkCallToolResult [] true
    /\ is_error o = true
    /\ Outcome.text o = ""
    /\ (forall c : ResultContainsAssertion.t,
          ResultContainsAssertion._expected c <> "" ->
          passed (ResultContainsAssertion.check c o) = false).
Proof.
  apply (raised_call_has_empty_result (RT := Scripted.runtime) (TR := Scripted.transport)
           Scripted.caller "echo" None None false
           (Scripted.start [] [Finished (Raise Scripted.broken_pipe)] [])
           Scripted.broken_pipe Scripted.after_call).
  reflexivity.
Defined.

(* ===================================================================== *)
(** ** Call history and [call_and_assert] *)
(* ===================================================================== *)
Section HistoryClaims.
Context `{RT : PyRuntime} `{TR : Transport}.
Import Session Caller Driver.

Lemma failed_assertions_failing : forall l o,
  failed_assertions l o = map (fun a => failure_line a o) (Spec.failing l o).
Proof.
  intros l o. unfold failed_assertions.
  assert (G : forall acc,
    fold_left
      (fun (failed : list string) assertion =>
         let assertion_result := check assertion o in
         if negb (passed assertion_result)
         then (failed ++ [failure_line assertion o])%list
         else failed) l acc
    = (acc ++ map (fun a => failure_line a o) (Spec.failing l o))%list).
  { induction l as [|a l IH]; intros acc; simpl.
    - now rewrite app_nil_r.
    - rewrite IH. destruct (negb (passed (check a o))); simpl;
        [now rewrite <- app_assoc | reflexivity]. }
  exact (G []).
Qed.

(** [call_and_assert] in terms of the outcome that [call] returned. *)
Lemma call_and_assert_after_call :
  forall self tool_name arguments assertions timeout w o self' w',
    call self tool_name arguments timeout false w = (Return o, self', w') ->
    call_and_assert self tool_name arguments assertions timeout w
    = match Spec.failing (match assertions with Some l => l | None => [] end) o with
      | [] => (Return o, self', w')
      | failing =>
          (Raise (mkExn AssertionError
                    ("Tool call '" ++ tool_name ++ "' failed assertions:" ++ newline
                       ++ join newline (map (fun a => failure_line a o) failing))),
           self', w')
      end.
Proof.
  intros self tool_name arguments assertions timeout w o self' w' H.
  unfold call_and_assert. rewrite H.
  destruct assertions as [[|a l]|]; [reflexivity | | reflexivity].
  rewrite failed_assertions_failing.
  destruct (Spec.failing (a :: l) o); reflexivity.
Qed.

(** Every operation other than [clear_history] keeps the recorded entries in
    place and appends one entry per call it issues. *)
Lemma step_extends_history : forall self w op,
  exists added,
    call_history (fst (step (self, w) op)) = (call_history self ++ added)%list
    /\ map Outcome.name added = issued op.
Proof.
  intros self w op. destruct op as [c | t a l tm | | | t | | s]; cbn [step issued].
  - destruct (call_returns self (tool c) (args c) (timeout c) (expect_error c) w)
      as [o [w' [E N]]].
    rewrite E. exists [o]. cbn. now rewrite N.
  - destruct (call_returns self t a tm false w) as [o [w' [E N]]].
    rewrite (call_and_assert_after_call _ _ _ l _ _ _ _ _ E).
    exists [o]. split; [|cbn; now rewrite N].
    destruct (Spec.failing _ o); reflexivity.
  - exists []. cbn. now rewrite app_nil_r.
  - exists []. cbn. now rewrite app_nil_r.
  - exists []. cbn. now rewrite app_nil_r.
  - exists []. cbn. now rewrite app_nil_r.
  - exists []. cbn. now rewrite app_nil_r.
Qed.

Lemma run_history : forall ops self w,
  map Outcome.name (call_history (fst (run ops (self, w))))
  = (map Outcome.name (call_history self) ++ flat_map issued ops)%list.
Proof.
  induction ops as [|op ops IH]; intros self w; cbn [run fold_left flat_map].
  - now rewrite app_nil_r.
  - destruct (step_extends_history self w op) as [added [H N]].
    destruct (step (self, w) op) as [self1 w1] eqn:E. cbn [fst] in H.
    fold (run ops (self1, w1)). rewrite IH, H, map_app, N.
    now rewrite <- app_assoc.
Qed.

(** C4: after any sequence of N calls on a new [ToolCaller] the history has
    length N and its i-th entry bears the i-th call's tool name; more
    generally, over any sequence of operations other than [clear_history],
    the history lists the issued calls in order, and each operation leaves
    the entries already recorded in place. *)
Theorem history_follows_calls :
  forall (session : MCPClientSession) (default_timeout : float) (w : World),
    (forall calls : list CallArgs,
        let self := fst (run (map DoCall calls) (Caller.new session default_timeout, w)) in
        List.length (call_history self) = List.length calls
        /\ forall i, option_map Outcome.name (nth_error (call_history self) i)
                     = option_map tool (nth_error calls i))
    /\ (forall ops : list Op,
          map Outcome.name
            (call_history (fst (run ops (Caller.new session default_timeout, w))))
          = flat_map issued ops)
    /\ (forall (self : ToolCaller) (w0 : World) (op : Op),
          exists added,
            call_history (fst (step (self, w0) op))
            = (call_history self ++ added)%list
            /\ map Outcome.name added = issued op).
Proof.
  intros session default_timeout w.
  assert (G : forall ops : list Op,
    map Outcome.name
      (call_history (fst (run ops (Caller.new session default_timeout, w))))
    = flat_map issued ops) by (intros ops; now rewrite run_history).
  split; [|split; [exact G | apply step_extends_history]].
  intros calls self.
  assert (N : map Outcome.name (call_history self) = map tool calls).
  { subst self. rewrite G. clear. induction calls as [|c calls IH]; cbn;
      [reflexivity | now rewrite IH]. }
  split.
  - rewrite <- (length_map Outcome.name), N. apply length_map.
  - intros i. rewrite <- !nth_error_map. now rewrite N.
Qed.

(** C5: [call_and_assert] checks every assertion of the list against the
    outcome of the call; it returns that outcome when none fails, and
    otherwise raises one [AssertionError] whose message has a line with the
    description and the message of every failing assertion. *)
Theorem call_and_assert_reports_all_failures :
  forall (self : ToolCaller) (tool_name : string) (arguments : option (Dict PyValue))
         (assertions : option (list BaseAssertion)) (timeout : option float) (w : World),
    exists (o : ToolCallResult) (self' : ToolCaller) (w' : World),
      call self tool_name arguments timeout false w = (Return o, self', w')
      /\ let l := match assertions with Some l => l | None => [] end in
         (Forall (fun a => passed (check a o) = true) l ->
          call_and_assert self tool_name arguments assertions timeout w
          = (Return o, self', w'))
         /\ (Exists (fun a => passed (check a o) = false) l ->
             exists msg,
               call_and_assert self tool_name arguments assertions timeout w
               = (Raise (mkExn AssertionError msg), self', w')
               /\ msg = "Tool call '" ++ tool_name ++ "' failed assertions:" ++ newline
                          ++ join newline
                               (map (fun a => failure_line a o) (Spec.failing l o))
               /\ forall a, In a l -> passed (check a o) = false ->
                            str_in (description a) msg = true
                            /\ str_in (message (check a o)) msg = true).
Proof.
  intros self tool_name arguments assertions timeout w.
  destruct (call_returns self tool_name arguments timeout false w) as [o [w' [E _]]].
  exists o, (record_call self o), w'. split; [exact E|].
  intros l. rewrite (call_and_assert_after_call _ _ _ assertions _ _ _ _ _ E).
  fold l. split.
  - intros Hall. replace (Spec.failing l o) with (@nil BaseAssertion); [reflexivity|].
    symmetry. unfold Spec.failing. induction Hall as [|a l' Ha Hall IH]; simpl;
      [reflexivity | now rewrite Ha].
  - intros Hex. destruct (Spec.failing l o) as [|f fs] eqn:F.
    + exfalso. apply Exists_exists in Hex. destruct Hex as [a [Hin Hf]].
      assert (Hin' : In a (Spec.failing l o))
        by (apply filter_In; split; [exact Hin | now rewrite Hf]).
      now rewrite F in Hin'.
    + eexists. split; [reflexivity|]. split; [reflexivity|].
      intros a Hin Hf.
      assert (Hline : In (failure_line a o) (map (fun a => failure_line a o) (f :: fs))).
      { apply (in_map (fun a => failure_line a o)). rewrite <- F. apply filter_In. split; [exact Hin | now rewrite Hf]. }
      assert (Hmsg : forall part, str_in part (failure_line a o) = true ->
        str_in part
          ("Tool call '" ++ tool_name ++ "' failed assertions:" ++ newline
             ++ join newline (map (fun a => failure_line a o) (f :: fs))) = true).
      { intros part Hp. apply Facts.str_in_trans with (b := failure_line a o); [exact Hp|].
        apply Facts.str_in_trans
          with (b := join newline (map (fun a => failure_line a o) (f :: fs))).
        - now apply Facts.str_in_join.
        - rewrite <- !Facts.append_assoc. apply Facts.str_in_iff.
          eexists; exists "". now rewrite Facts.append_nil_r. }
      split; apply Hmsg; unfold failure_line.
      * apply (Facts.str_in_mid "- ").
      * apply Facts.str_in_iff.
        exists ("- " ++ description a ++ ": "), "".
        now rewrite Facts.append_nil_r, !Facts.append_assoc.
Qed.

End HistoryClaims.

(* ===================================================================== *)
(** ** Session lifecycle *)
(* ===================================================================== *)
Section SessionClaims.
Context `{RT : PyRuntime} `{TR : Transport}.
Import Session.

Lemma cleanup_forced : forall self w,
  exists w', _cleanup None self w = (cleared self, Return tt, w').
Proof.
  intros self w. unfold _cleanup.
  destruct (_exit_stack self) as [stack|]; [|now exists w].
  destruct (aclose stack w) as [r w']. now exists w'.
Qed.

(** [disconnect] always returns, and leaves the session disconnected. *)
Lemma disconnect_returns : forall self w,
  exists self' w',
    disconnect self w = (self', Return tt, w') /\ is_connected self' = false.
Proof.
  intros self w. unfold disconnect.
  destruct (is_connected self) eqn:C; cbn [negb].
  - unfold _cleanup at 1.
    destruct (_exit_stack self) as [stack|].
    + destruct (aclose_expires stack (Config.shutdown_timeout (_config self)) w)
        as [w'|].
      * cbn [isinstance issubclass exc_class].
        destruct (cleanup_forced self w') as [w'' E]. rewrite E.
        now exists (cleared self), w''.
      * destruct (aclose stack w) as [r w']. now exists (cleared self), w'.
    + now exists (cleared self), w.
  - now exists self, w.
Qed.

(** C9: [disconnect] returns with the session disconnected, also when the
    shutdown deadline passes and the cleanup is forced; a second
    [disconnect] changes neither the session nor the world. *)
Theorem disconnect_idempotent :
  forall (self : MCPClientSession) (w : World),
    exists (self1 : MCPClientSession) (w1 : World),
      disconnect self w = (self1, Return tt, w1)
      /\ is_connected self1 = false
      /\ disconnect self1 w1 = (self1, Return tt, w1)
      /\ (forall stack w',
            is_connected self = true ->
            _exit_stack self = Some stack ->
            aclose_expires stack (Config.shutdown_timeout (_config self)) w = Some w' ->
            self1 = cleared self /\ w1 = snd (aclose stack w')).
Proof.
  intros self w.
  destruct (disconnect_returns self w) as [self1 [w1 [E D]]].
  exists self1, w1. split; [exact E|]. split; [exact D|]. split.
  - unfold disconnect. now rewrite D.
  - intros stack w' C S X. unfold disconnect in E. rewrite C in E. cbn [negb] in E.
    unfold _cleanup in E. rewrite S, X in E.
    cbn [isinstance issubclass exc_class] in E. rewrite S in E.
    destruct (aclose stack w') as [r w'']. cbn [snd].
    inversion E. split; reflexivity.
Qed.

End SessionClaims.

(* ===================================================================== *)
(** ** Parallel start-up and its rollback *)
(* ===================================================================== *)
Section ManagerClaims.
Context `{RT : PyRuntime} `{TR : Transport}.
Import Session Manager.

Lemma stop_server_sessions : forall self server_name w,
  _sessions (snd (fst (stop_server self server_name w)))
  = dict_del (_sessions self) server_name.
Proof.
  intros self server_name w. unfold stop_server.
  destruct (dict_get (_sessions self) server_name) as [session|] eqn:G.
  - destruct (is_connected session).
    + destruct (disconnect_returns session w) as [s' [w' [E _]]]. rewrite E.
      reflexivity.
    + reflexivity.
  - cbn [fst snd]. symmetry. now apply Facts.dict_del_absent.
Qed.

Lemma stop_loop_sessions : forall (names : list string) self w,
  _sessions
    (fst (fold_left
            (fun (st : MCPServerManager * World) name =>
               let '(_, self, w) := stop_server (fst st) name (snd st) in (self, w))
            names (self, w)))
  = fold_left dict_del names (_sessions self).
Proof.
  induction names as [|n names IH]; intros self w; [reflexivity|].
  cbn [fold_left fst snd].
  pose proof (stop_server_sessions self n w) as H.
  destruct (stop_server self n w) as [[r self1] w1]. cbn [fst snd] in H.
  rewrite IH. now rewrite H.
Qed.

(** [stop_all_servers] leaves no session registered. *)
Lemma stop_all_servers_empties : forall self w,
  _sessions (fst (stop_all_servers self w)) = [].
Proof.
  intros self w. unfold stop_all_servers. rewrite stop_loop_sessions.
  apply Facts.fold_dict_del_all. auto.
Qed.

Lemma collect_errors_failures : forall names results,
  collect_errors names results = Spec.failures names results.
Proof.
  intros names results. unfold collect_errors, Spec.failures.
  assert (G : forall (items : list (string * option (PyResult MCPClientSession))) acc,
    fold_left
      (fun (errors : list (string * PyExn)) item =>
         match snd item with
         | Some (Raise e) =>
             if isinstance e Exception then (errors ++ [(fst item, e)])%list else errors
         | _ => errors
         end) items acc
    = (acc ++ flat_map
                (fun item => match snd item with
                             | Some (Raise e) => [(fst item, e)]
                             | _ => []
                             end) items)%list).
  { induction items as [|item items IH]; intros acc; simpl.
    - now rewrite app_nil_r.
    - rewrite IH. destruct (snd item) as [[s|e]|]; try reflexivity.
      rewrite ?every_exception_is_Exception. now rewrite <- app_assoc. }
  exact (G _ []).
Qed.

(** The entry of task [i] among the gathered results. *)
Lemma gathered_entry : forall {A} (f : nat -> A) (names : list string) start i name,
  nth_error names i = Some name ->
  In (name, f (start + i)) (combine names (map f (seq start (List.length names)))).
Proof.
  intros A f names; induction names as [|n names IH]; intros start i name H.
  - destruct i; discriminate.
  - destruct i as [|i]; cbn in *.
    + inversion H. rewrite Nat.add_0_r. now left.
    + right. rewrite <- Nat.add_succ_comm. now apply IH.
Qed.

Lemma failed_task_is_failure : forall names log i name e,
  nth_error names i = Some name ->
  task_result log i = Some (Raise e) ->
  In (name, e) (Spec.failures names (gathered names log)).
Proof.
  intros names log i name e Hn Ht. unfold Spec.failures, gathered.
  apply in_flat_map. exists (name, task_result log i). split.
  - exact (gathered_entry (task_result log) names 0 i name Hn).
  - cbn [fst snd]. rewrite Ht. now left.
Qed.

(** Every scheduled task of a configured server leaves its result in the log. *)
Lemma run_tasks_log : forall schedule names self w log,
  forall i, nth_error names i <> None ->
    (In i (map fst log) \/ In i schedule) ->
    In i (map fst (fst (fst (run_tasks schedule names self w log)))).
Proof.
  induction schedule as [|j schedule IH]; intros names self w log i Hi H; cbn [run_tasks].
  - destruct H as [H|[]]. exact H.
  - destruct (nth_error names j) as [name|] eqn:Ej.
    + destruct (start_server self name w) as [[r self1] w1].
      apply IH; [exact Hi|].
      rewrite map_app, in_app_iff. cbn.
      destruct H as [H|[->|H]]; auto.
    + apply IH; [exact Hi|].
      destruct H as [H|[->|H]]; auto. contradiction.
Qed.

(** When every task index is scheduled, every task has a gathered result. *)
Lemma gathered_complete : forall schedule self w,
  let names := server_names self in
  (forall i, i < List.length names -> In i schedule) ->
  Forall (fun r => r <> None)
    (gathered names (fst (fst (run_tasks schedule names self w [])))).
Proof.
  intros schedule self w names Hs. unfold gathered.
  apply Forall_forall. intros r Hr. apply in_map_iff in Hr.
  destruct Hr as [i [<- Hi]]. apply in_seq in Hi.
  assert (Hin : In i (map fst (fst (fst (run_tasks schedule names self w []))))).
  { apply run_tasks_log.
    - apply nth_error_Some. lia.
    - right. apply Hs. lia. }
  unfold task_result. apply in_map_iff in Hin. destruct Hin as [[j r] [Hj Hin]].
  cbn in Hj. subst j.
  destruct (find (fun entry => Nat.eqb (fst entry) i)
              (fst (fst (run_tasks schedule names self w [])))) eqn:F.
  - discriminate.
  - exfalso. apply (find_none _ _ F) in Hin. cbn in Hin.
    now rewrite Nat.eqb_refl in Hin.
Qed.

End ManagerClaims.

(** The same run, evaluated: gamma and alpha connect, beta fails, the error
    names beta alone and nothing stays connected. *)
Example three_servers_one_fails :
  fst (fst (Manager.start_all_servers (RT := Scripted.runtime)
              (TR := Scripted.transport)
              Scripted.manager true [2; 0; 1] Scripted.third_open_fails))
  = Raise (mkExn ConnectionError
             ("Failed to start 1 server(s):" ++ newline
                ++ "beta: Failed to connect to MCP server 'beta': no such file"))
  /\ Manager.connected_servers
       (snd (fst (Manager.start_all_servers (RT := Scripted.runtime)
                    (TR := Scripted.transport)
                    Scripted.manager true [2; 0; 1] Scripted.third_open_fails)))
     = []
  /\ Manager.connected_servers
       (snd (fst (Manager.run_tasks (RT := Scripted.runtime)
                    (TR := Scripted.transport)
                    [2; 0; 1] (Manager.server_names Scripted.manager)
                    Scripted.manager Scripted.third_open_fails [])))
     = ["gamma"; "alpha"].
Proof. vm_compute. repeat split. Qed.

(* ===================================================================== *)
(** ** Further properties: the session *)
(* ===================================================================== *)
Section SessionProperties.
Context `{RT : PyRuntime} `{TR : Transport}.
Import Session Caller Driver.

Lemma cleared_assigned : forall self stack o,
  cleared (assigned self stack o) = cleared self.
Proof. intros self stack o. destruct o as [? ? ?|[|? ?|? ? ?] ?]; reflexivity. Qed.

Lemma disconnect_connected : forall self w,
  is_connected self = true ->
  fst (fst (disconnect self w)) = cleared self.
Proof.
  intros self w C. unfold disconnect. rewrite C. cbn [negb].
  unfold _cleanup at 1.
  destruct (_exit_stack self) as [stack|]; [|reflexivity].
  destruct (aclose_expires stack (Config.shutdown_timeout (_config self)) w) as [w'|].
  - cbn [isinstance issubclass exc_class].
    destruct (cleanup_forced self w') as [w'' E]. now rewrite E.
  - now destruct (aclose stack w).
Qed.

Lemma connect_returns_connected : forall self w self' w',
  connect self w = (self', Return tt, w') -> is_connected self' = true.
Proof.
  intros self w self' w'. unfold connect.
  destruct (is_connected self) eqn:C; [intros H; inversion H; now subst|].
  destruct (new_exit_stack w) as [stack w1].
  destruct (open_session _ _ _ _) as [o w2].
  destruct o as [rd wr sess|stage cause].
  - intros H; inversion H. reflexivity.
  - destruct (_cleanup None _ w2) as [[s r] w3].
    destruct (isinstance _ _); discriminate.
Qed.

Lemma cleanup_after_failed_open : forall self stack stage cause w,
  _cleanup None (assigned self stack (OpenFailed stage cause)) w
  = (cleared self, Return tt, snd (aclose stack w)).
Proof.
  intros self stack stage cause w. unfold _cleanup.
  destruct stage; cbn [assigned _exit_stack]; destruct (aclose stack w); reflexivity.
Qed.

(** X1: [connect] ends in one of two states.  When it returns, the session
    is connected.  When it raises, the attempt to open the session failed in
    the transport, the exit stack of the attempt has been closed, every
    resource field is reset, and the exception is a [TimeoutError] with the
    configured timeout (the deadline passed, or the transport raised a
    timeout) or else a [ConnectionError] whose text ends with the text of
    the exception the transport raised. *)
Theorem connect_is_all_or_nothing :
  forall (self : MCPClientSession) (w : World),
    match connect self w with
    | (self', Return _, _) => is_connected self' = true
    | (self', Raise e, w') =>
        self' = cleared self
        /\ is_connected self' = false
        /\ exists stage cause,
             let stack := fst (new_exit_stack w) in
             let w1 := snd (new_exit_stack w) in
             let attempt :=
               open_session stack (_build_server_params self w1)
                 (Config.startup_timeout (_config self)) w1 in
             fst attempt = OpenFailed stage cause
             /\ w' = snd (aclose stack (snd attempt))
             /\ e = (if isinstance (in_flight cause) TimeoutError
                     then mkExn TimeoutError
                            ("Connection to MCP server '" ++ name self
                               ++ "' timed out after "
                               ++ float_str (Config.startup_timeout (_config self))
                               ++ "s")
                     else mkExn ConnectionError
                            ("Failed to connect to MCP server '" ++ name self ++ "': "
                               ++ exc_str (in_flight cause)))
    end.
Proof.
  intros self w. unfold connect.
  destruct (is_connected self) eqn:C; [exact C|].
  destruct (new_exit_stack w) as [stack w1]. cbn [fst snd].
  destruct (open_session stack (_build_server_params self w1)
              (Config.startup_timeout (_config self)) w1) as [o w2]. cbn [fst snd].
  destruct o as [rd wr sess|stage cause]; [reflexivity|].
  rewrite cleanup_after_failed_open.
  destruct (isinstance (in_flight cause) TimeoutError) eqn:T;
    (split; [reflexivity|]; split; [reflexivity|]; exists stage, cause;
     cbv zeta; rewrite T; repeat split).
Qed.

(** X2: connecting a new session and disconnecting it again gives back the
    session as it was built: no resource is kept. *)
Theorem connect_disconnect_round_trip :
  forall (server_config : Config.ServerConfig) (w : World)
         (self1 : MCPClientSession) (w1 : World),
    connect (Session.new server_config) w = (self1, Return tt, w1) ->
    is_connected self1 = true
    /\ fst (fst (disconnect self1 w1)) = Session.new server_config
    /\ snd (fst (disconnect self1 w1)) = Return tt.
Proof.
  intros server_config w self1 w1 H.
  assert (C : is_connected self1 = true) by (eapply connect_returns_connected; eauto).
  assert (K : _config self1 = server_config).
  { unfold connect in H. cbn [is_connected Session.new _session] in H.
    destruct (new_exit_stack w) as [stack w0].
    destruct (open_session _ _ _ _) as [o w2].
    destruct o as [rd wr sess|stage cause].
    - inversion H. reflexivity.
    - destruct (_cleanup None _ w2) as [[s r] w3].
      destruct (isinstance _ _); discriminate. }
  split; [exact C|]. split.
  - rewrite (disconnect_connected _ _ C). unfold cleared, Session.new. now rewrite K.
  - destruct (disconnect_returns self1 w1) as [s [w' [E _]]]. now rewrite E.
Qed.

End SessionProperties.

(** X2 at a server whose connection succeeds with streams 1, 2 and session 3
    on exit stack 0. *)
Lemma connect_disconnect_round_trip_witness :
  Session.is_connected
    (Session.mkSession Scripted.transport (Scripted.server "echo")
       (Some 3) (Some 0) (Some 1) (Some 2)) = true
  /\ fst (fst (Session.disconnect
                 (Session.mkSession Scripted.transport (Scripted.server "echo")
                    (Some 3) (Some 0) (Some 1) (Some 2))
                 (Scripted.mkWorld 0%float 1 [] [] [])))
     = Session.new (Scripted.server "echo")
  /\ snd (fst (Session.disconnect
                 (Session.mkSession Scripted.transport (Scripted.server "echo")
                    (Some 3) (Some 0) (Some 1) (Some 2))
                 (Scripted.mkWorld 0%float 1 [] [] [])))
     = Return tt.
Proof.
  apply (connect_disconnect_round_trip (RT := Scripted.runtime)
           (TR := Scripted.transport) (Scripted.server "echo")
           (Scripted.start [Opened 1 2 3] [] [])).
  reflexivity.
Defined.

(* ===================================================================== *)
(** ** Further properties: tool calls through the session *)
(* ===================================================================== *)
Section CallProperties.
Context `{RT : PyRuntime} `{TR : Transport}.
Import Session Caller Driver.

(** X3: a call through a session that is not connected never reaches the
    transport: the world only advances by the two clock readings, and the
    outcome carries the session's "not connected" error behind
    "Tool call failed: ", with a success flag equal to [expect_error]. *)
Theorem call_on_disconnected_session :
  forall (self : ToolCaller) (tool_name : string) (arguments : option (Dict PyValue))
         (timeout : option float) (expect_error : bool) (w : World),
    is_connected (Caller._session self) = false ->
    exists o : ToolCallResult,
      call self tool_name arguments timeout expect_error w
      = (Return o, record_call self o, snd (perf_counter (snd (perf_counter w))))
      /\ success o = expect_error
      /\ error_message o
         = Some ("Tool call failed: MCP server '" ++ name (Caller._session self)
                   ++ "' is not connected")
      /\ Outcome.text o = "".
Proof.
  intros self tool_name arguments timeout expect_error w C.
  assert (H : session_answer self tool_name arguments timeout w
              = (Raise (mkExn ConnectionError
                          ("MCP server '" ++ name (Caller._session self)
                             ++ "' is not connected")),
                 snd (perf_counter w))).
  { unfold session_answer, call_tool, _ensure_connected. now rewrite C. }
  eexists. split.
  - apply (call_on_raise _ _ _ _ expect_error _ _ _ H).
  - repeat split.
Qed.

(** X4: when the deadline of the remote call passes, the outcome's error
    message names the tool and the timeout in force: the [timeout] argument,
    or the caller's default when none is given (never the session's own
    default); the success flag equals [expect_error]. *)
Theorem call_deadline_outcome :
  forall (self : ToolCaller) (tool_name : string) (arguments : option (Dict PyValue))
         (timeout : option float) (expect_error : bool) (w : World)
         (session : Resource) (w1 : World),
    Session._session (Caller._session self) = Some session ->
    rpc_call_tool session tool_name (passed_arguments arguments)
      (passed_timeout self timeout) (snd (perf_counter w)) = (Expired, w1) ->
    exists o : ToolCallResult,
      call self tool_name arguments timeout expect_error w
      = (Return o, record_call self o, snd (perf_counter w1))
      /\ success o = expect_error
      /\ error_message o
         = Some ("Tool call '" ++ tool_name ++ "' timed out after "
                   ++ float_str (match timeout with
                                 | Some t => t
                                 | None => _default_timeout self
                                 end) ++ "s")
      /\ is_error o = true.
Proof.
  intros self tool_name arguments timeout expect_error w session w1 S X.
  assert (H : session_answer self tool_name arguments timeout w
              = (Raise (mkExn TimeoutError
                          ("Tool call '" ++ tool_name ++ "' timed out after "
                             ++ float_str (passed_timeout self timeout) ++ "s")), w1)).
  { unfold session_answer.
    apply (call_tool_deadline _ _ (Some (passed_arguments arguments)) _ _ session);
      assumption. }
  eexists. split.
  - apply (call_on_raise _ _ _ _ expect_error _ _ _ H).
  - repeat split.
Qed.

(** X5: unlike [call], [list_tools] does not capture failures: on a session
    that is not connected it raises the session's [ConnectionError] without
    touching the world, and on a connected one it returns the tool names in
    the server's order or passes the transport's exception on unchanged. *)
Theorem list_tools_propagates :
  forall (self : ToolCaller) (w : World),
    match Session._session (Caller._session self) with
    | None =>
        Caller.list_tools self w
        = (Raise (mkExn ConnectionError
                    ("MCP server '" ++ name (Caller._session self)
                       ++ "' is not connected")), w)
    | Some session =>
        match rpc_list_tools session w with
        | (Return tools, w') =>
            Caller.list_tools self w = (Return (map tool_name tools), w')
        | (Raise e, w') => Caller.list_tools self w = (Raise e, w')
        end
    end.
Proof.
  intros self w. unfold Caller.list_tools, Session.list_tools, _ensure_connected,
    is_connected.
  destruct (Session._session (Caller._session self)) as [session|]; cbn [negb].
  - destruct (rpc_list_tools session w) as [[tools|e] w']; reflexivity.
  - reflexivity.
Qed.

End CallProperties.

(** X3 at a caller whose session was never connected. *)
Lemma call_on_disconnected_session_witness :
  exists o : ToolCallResult,
    Caller.call (RT := Scripted.runtime) (TR := Scripted.transport)
      (Caller.new (Session.new (Scripted.server "echo")) 30%float)
      "echo" None None false (Scripted.start [] [] [])
    = (Return o,
       Caller.record_call (Caller.new (Session.new (Scripted.server "echo")) 30%float) o,
       snd (@perf_counter Scripted.transport
              (snd (@perf_counter Scripted.transport (Scripted.start [] [] [])))))
    /\ success o = false
    /\ error_message o
       = Some ("Tool call failed: MCP server '"
                 ++ Session.name (TR := Scripted.transport)
                      (Caller._session
                         (Caller.new (Session.new (Scripted.server "echo")) 30%float))
                 ++ "' is not connected")
    /\ Outcome.text o = "".
Proof.
  apply (call_on_disconnected_session (RT := Scripted.runtime)
           (TR := Scripted.transport)
           (Caller.new (Session.new (Scripted.server "echo")) 30%float)
           "echo" None None false (Scripted.start [] [] [])).
  reflexivity.
Defined.

(** X4 at a call without a [timeout] argument whose deadline passes. *)
Lemma call_deadline_outcome_witness :
  exists o : ToolCallResult,
    Caller.call (RT := Scripted.runtime) (TR := Scripted.transport)
      Scripted.caller "slow" None None true (Scripted.start [] [Expired] [])
    = (Return o, Caller.record_call Scripted.caller o,
       snd (@perf_counter Scripted.transport Scripted.after_call))
    /\ success o = true
    /\ error_message o
       = Some ("Tool call 'slow' timed out after "
                 ++ @float_str Scripted.runtime
                      (match @None float with
                               | Some t => t
                               | None => Caller._default_timeout Scripted.caller
                               end) ++ "s")
    /\ is_error o = true.
Proof.
  apply (call_deadline_outcome (RT := Scripted.runtime) (TR := Scripted.transport)
           Scripted.caller "slow" None None true (Scripted.start [] [Expired] [])
           7 Scripted.after_call); reflexivity.
Defined.

(* ===================================================================== *)
(** ** Further properties: the server manager *)
(* ===================================================================== *)
Module DictFacts.

Lemma get_set_same : forall {V} (d : Dict V) k v, dict_get (dict_set d k v) k = Some v.
Proof.
  intros V d k v. unfold dict_get. induction d as [|[k' v'] d IH]; simpl.
  - now rewrite String.eqb_refl.
  - destruct (String.eqb k' k) eqn:E; simpl.
    + now rewrite String.eqb_refl.
    + now rewrite E.
Qed.

Lemma get_set_other : forall {V} (d : Dict V) k v k',
  k' <> k -> dict_get (dict_set d k v) k' = dict_get d k'.
Proof.
  intros V d k v k' Hne. unfold dict_get. induction d as [|[k0 v0] d IH]; simpl.
  - destruct (String.eqb_spec k k'); [congruence | reflexivity].
  - destruct (String.eqb_spec k0 k) as [->|Hk]; simpl.
    + destruct (String.eqb_spec k k'); [congruence | reflexivity].
    + destruct (String.eqb k0 k'); [reflexivity | exact IH].
Qed.

Lemma get_del_same : forall {V} (d : Dict V) k, dict_get (dict_del d k) k = None.
Proof.
  intros V d k. unfold dict_get, dict_del. induction d as [|[k0 v0] d IH]; simpl.
  - reflexivity.
  - destruct (String.eqb k0 k) eqn:E; simpl; [exact IH | now rewrite E].
Qed.

Lemma get_del_other : forall {V} (d : Dict V) k k',
  k' <> k -> dict_get (dict_del d k) k' = dict_get d k'.
Proof.
  intros V d k k' Hne. unfold dict_get, dict_del.
  induction d as [|[k0 v0] d IH]; simpl; [reflexivity|].
  destruct (String.eqb_spec k0 k) as [->|Hk]; simpl.
  - destruct (String.eqb_spec k k'); [congruence | exact IH].
  - destruct (String.eqb k0 k'); [reflexivity | exact IH].
Qed.

Lemma contains_set : forall {V} (d : Dict V) k v, dict_contains (dict_set d k v) k = true.
Proof.
  intros V d k v. unfold dict_contains. induction d as [|[k' v'] d IH]; simpl.
  - now rewrite String.eqb_refl.
  - destruct (String.eqb k' k) eqn:E; simpl.
    + now rewrite String.eqb_refl.
    + now rewrite E.
Qed.

Lemma get_in_keys : forall {V} (d : Dict V) k v,
  dict_get d k = Some v -> In (k, v) d.
Proof.
  intros V d k v. unfold dict_get. destruct (find _ d) as [[k0 v0]|] eqn:F; [|discriminate].
  cbn. intros H; inversion H; subst. apply find_some in F. destruct F as [Hin Hk].
  cbn in Hk. apply String.eqb_eq in Hk. now subst.
Qed.

End DictFacts.

Section ManagerProperties.
Context `{RT : PyRuntime} `{TR : Transport}.
Import Session Manager.

(** The manager once the lock of a server name exists. *)
Lemma lock_is_created : forall self server_name,
  exists self0 : MCPServerManager,
    self0 = (if negb (dict_contains (_locks self) server_name)
             then mkManager _ (_config self) (_sessions self)
                    (dict_set (_locks self) server_name mkLock)
             else self)
    /\ _sessions self0 = _sessions self
    /\ _config self0 = _config self
    /\ dict_contains (_locks self0) server_name = true.
Proof.
  intros self server_name. eexists. split; [reflexivity|].
  destruct (dict_contains (_locks self) server_name) eqn:E; cbn [negb];
    (split; [reflexivity|]; split; [reflexivity|]).
  - exact E.
  - cbn. apply DictFacts.contains_set.
Qed.

Lemma start_server_live : forall self server_name w session,
  get_session self server_name = Some session ->
  exists self',
    start_server self server_name w = (Return session, self', w)
    /\ _sessions self' = _sessions self
    /\ _config self' = _config self.
Proof.
  intros self server_name w session H. unfold start_server.
  destruct (lock_is_created self server_name) as [self0 [E [S [K L]]]].
  rewrite <- E. cbv zeta. rewrite S. unfold get_session in H. rewrite H.
  exists self0. repeat split; assumption.
Qed.

Lemma start_server_success : forall self server_name w session self' w',
  start_server self server_name w = (Return session, self', w') ->
  get_session self' server_name = Some session
  /\ dict_contains (_locks self') server_name = true
  /\ _config self' = _config self
  /\ (forall other, other <> server_name ->
        dict_get (_sessions self') other = dict_get (_sessions self) other).
Proof.
  intros self server_name w session self' w'. unfold start_server.
  destruct (lock_is_created self server_name) as [self0 [E [S [K L]]]].
  rewrite <- E. cbv zeta. rewrite S.
  destruct (match dict_get (_sessions self) server_name with
            | Some session => if is_connected session then Some session else None
            | None => None
            end) as [live|] eqn:G.
  - intros H. injection H as <- <- <-. unfold get_session. rewrite S, G.
    split; [reflexivity|]. split; [exact L|]. split; [exact K|].
    intros other _. reflexivity.
  - rewrite K. destruct (Config.get_server (_config self) server_name) as [cfg|];
      [|discriminate].
    destruct (connect (Session.new cfg) w) as [[s r] w1] eqn:C.
    destruct r as [[]|e]; [|discriminate].
    intros H. injection H as <- <- <-.
    unfold get_session, set_sessions. cbn [_sessions _locks _config].
    rewrite DictFacts.get_set_same, (connect_returns_connected _ _ _ _ C).
    split; [reflexivity|]. split; [exact L|]. split; [exact K|].
    intros other Hne. now apply DictFacts.get_set_other.
Qed.

Lemma start_server_failure : forall self server_name w e self' w',
  start_server self server_name w = (Raise e, self', w') ->
  _sessions self' = _sessions self /\ _config self' = _config self.
Proof.
  intros self server_name w e self' w'. unfold start_server.
  destruct (lock_is_created self server_name) as [self0 [E [S [K L]]]].
  rewrite <- E. cbv zeta. rewrite S.
  destruct (match dict_get (_sessions self) server_name with
            | Some session => if is_connected session then Some session else None
            | None => None
            end) as [live|] eqn:G; [discriminate|].
  rewrite K. destruct (Config.get_server (_config self) server_name) as [cfg|].
  - destruct (connect (Session.new cfg) w) as [[s r] w1] eqn:C.
    destruct r as [[]|e']; [discriminate|].
    intros H. injection H as <- <- <-. now split.
  - intros H. injection H as <- <- <-. now split.
Qed.

(** X6: [start_server] is idempotent: once it has returned a session for a
    server name, starting that name again returns the same session and
    changes neither the manager nor the world (no second connection). *)
Theorem start_server_twice :
  forall (self : MCPServerManager) (server_name : string) (w : World)
         (session : MCPClientSession) (self' : MCPServerManager) (w' : World),
    start_server self server_name w = (Return session, self', w') ->
    start_server self' server_name w' = (Return session, self', w').
Proof.
  intros self server_name w session self' w' H.
  apply start_server_success in H. destruct H as [G [L _]].
  unfold start_server. rewrite L. cbn [negb]. cbv zeta.
  unfold get_session in G. now rewrite G.
Qed.

(** X7: starting a server name that is not configured (and has no live
    session) raises a [ValueError] that lists the configured names, or
    "(none)" when their list is empty; no session is registered and the
    world is not touched. *)
Theorem start_server_unknown_name :
  forall (self : MCPServerManager) (server_name : string) (w : World),
    get_session self server_name = None ->
    Config.get_server (_config self) server_name = None ->
    exists self' : MCPServerManager,
      start_server self server_name w
      = (Raise (mkExn ValueError
                  ("Server '" ++ server_name ++ "' not found in configuration. "
                     ++ "Available servers: "
                     ++ (if truthy (join ", " (server_names self))
                         then join ", " (server_names self) else "(none)"))),
         self', w)
      /\ _sessions self' = _sessions self.
Proof.
  intros self server_name w G N. unfold start_server.
  destruct (lock_is_created self server_name) as [self0 [E [S [K L]]]].
  rewrite <- E. cbv zeta. rewrite S. unfold get_session in G. rewrite G, K, N.
  exists self0. split; [|exact S].
  unfold server_names. now rewrite K.
Qed.

(** X8: a [start_server] that raises registers nothing: the sessions of the
    manager are exactly those it had before. *)
Theorem failed_start_registers_nothing :
  forall (self : MCPServerManager) (server_name : string) (w : World)
         (e : PyExn) (self' : MCPServerManager) (w' : World),
    start_server self server_name w = (Raise e, self', w') ->
    _sessions self' = _sessions self
    /\ connected_servers self' = connected_servers self
    /\ forall other, get_session self' other = get_session self other.
Proof.
  intros self server_name w e self' w' H.
  apply start_server_failure in H. destruct H as [S _].
  unfold connected_servers, get_session. rewrite S. repeat split.
Qed.

(** X9: [stop_server] always returns; afterwards the name is not registered
    and every other registration is as before; for a name that is not
    registered it changes neither the manager nor the world. *)
Theorem stop_server_removes_one :
  forall (self : MCPServerManager) (server_name : string) (w : World),
    fst (fst (stop_server self server_name w)) = Return tt
    /\ dict_get (_sessions (snd (fst (stop_server self server_name w)))) server_name
       = None
    /\ (forall other, other <> server_name ->
          dict_get (_sessions (snd (fst (stop_server self server_name w)))) other
          = dict_get (_sessions self) other)
    /\ (dict_get (_sessions self) server_name = None ->
        stop_server self server_name w = (Return tt, self, w)).
Proof.
  intros self server_name w.
  rewrite stop_server_sessions. split; [|split; [|split]].
  - unfold stop_server.
    destruct (dict_get (_sessions self) server_name) as [session|]; [|reflexivity].
    destruct (is_connected session); [|reflexivity].
    destruct (disconnect_returns session w) as [s' [w' [E _]]]. now rewrite E.
  - apply DictFacts.get_del_same.
  - intros other Hne. now apply DictFacts.get_del_other.
  - intros N. unfold stop_server. now rewrite N.
Qed.

End ManagerProperties.

(** X6 at server alpha, started in a world where its connection succeeds. *)
Lemma start_server_twice_witness :
  Manager.start_server (RT := Scripted.runtime) (TR := Scripted.transport)
    Scenarios.alpha_started "alpha" Scenarios.after_open
  = (Return Scenarios.alpha_session, Scenarios.alpha_started, Scenarios.after_open).
Proof.
  apply (start_server_twice (RT := Scripted.runtime) (TR := Scripted.transport)
           Scripted.manager "alpha" Scenarios.one_open).
  reflexivity.
Defined.

(** X7 at a name that is not among the three configured servers. *)
Lemma start_server_unknown_name_witness :
  exists self' : Manager.MCPServerManager,
    Manager.start_server (RT := Scripted.runtime) (TR := Scripted.transport)
      Scripted.manager "delta" Scenarios.one_open
    = (Raise (mkExn ValueError
                ("Server '" ++ "delta" ++ "' not found in configuration. "
                   ++ "Available servers: "
                   ++ (if truthy (join ", " (Manager.server_names Scripted.manager))
                       then join ", " (Manager.server_names Scripted.manager)
                       else "(none)"))),
       self', Scenarios.one_open)
    /\ Manager._sessions self' = Manager._sessions Scripted.manager.
Proof.
  apply (start_server_unknown_name (RT := Scripted.runtime) (TR := Scripted.transport)
           Scripted.manager "delta" Scenarios.one_open); reflexivity.
Defined.

(** X8 at server alpha, started in a world where no executable is found. *)
Lemma failed_start_registers_nothing_witness :
  Manager._sessions Scenarios.alpha_failed = Manager._sessions Scripted.manager
  /\ Manager.connected_servers Scenarios.alpha_failed
     = Manager.connected_servers Scripted.manager
  /\ forall other,
       Manager.get_session Scenarios.alpha_failed other
       = Manager.get_session Scripted.manager other.
Proof.
  apply (failed_start_registers_nothing (RT := Scripted.runtime)
           (TR := Scripted.transport)
           Scripted.manager "alpha" (Scripted.start [] [] [])
           (Scenarios.no_such_file "alpha") Scenarios.alpha_failed Scenarios.after_open).
  reflexivity.
Defined.

Section StartupProperties.
Context `{RT : PyRuntime} `{TR : Transport}.
Import Session Manager.

Lemma get_session_connected : forall self server_name session,
  get_session self server_name = Some session ->
  is_connected session = true /\ dict_get (_sessions self) server_name = Some session.
Proof.
  intros self server_name session. unfold get_session.
  destruct (dict_get (_sessions self) server_name) as [s|]; [|discriminate].
  destruct (is_connected s) eqn:C; [|discriminate].
  intros H; inversion H; subst. now split.
Qed.

Lemma get_session_same_entry : forall self self' server_name,
  dict_get (_sessions self') server_name = dict_get (_sessions self) server_name ->
  get_session self' server_name = get_session self server_name.
Proof. intros self self' server_name H. unfold get_session. now rewrite H. Qed.

(** Starting a server never takes a live session away. *)
Lemma start_server_keeps_live : forall self server_name w other session,
  get_session self other = Some session ->
  get_session (snd (fst (start_server self server_name w))) other = Some session.
Proof.
  intros self server_name w other session G.
  destruct (String.eqb_spec other server_name) as [->|Hne].
  - destruct (start_server_live self server_name w session G) as [self' [E [S _]]].
    rewrite E. cbn [fst snd]. rewrite <- G. apply get_session_same_entry. now rewrite S.
  - destruct (start_server self server_name w) as [[[s|e] self'] w'] eqn:E; cbn [fst snd].
    + apply start_server_success in E. destruct E as [_ [_ [_ F]]].
      rewrite <- G. apply get_session_same_entry. now apply F.
    + apply start_server_failure in E. destruct E as [S _].
      rewrite <- G. apply get_session_same_entry. now rewrite S.
Qed.

Lemma sequential_keeps_live : forall names self w other session,
  get_session self other = Some session ->
  get_session (snd (fst (_start_servers_sequential self names w))) other = Some session.
Proof.
  induction names as [|n names IH]; intros self w other session G; cbn.
  - exact G.
  - pose proof (start_server_keeps_live self n w other session G) as K.
    destruct (start_server self n w) as [[[s|e] self1] w1]; cbn [fst snd] in K.
    + now apply IH.
    + exact K.
Qed.

Lemma sequential_success_live : forall names self w d self' w',
  _start_servers_sequential self names w = (Return d, self', w') ->
  d = _sessions self'
  /\ forall n, In n names -> exists session, get_session self' n = Some session.
Proof.
  induction names as [|n names IH]; intros self w d self' w' H; cbn in H.
  - injection H as <- <- <-. split; [reflexivity | intros n []].
  - destruct (start_server self n w) as [[[s|e] self1] w1] eqn:E; [|discriminate].
    destruct (IH _ _ _ _ _ H) as [D L]. split; [exact D|].
    intros m [<-|Hin]; [|now apply L].
    apply start_server_success in E. destruct E as [G _].
    exists s. pose proof (sequential_keeps_live names self1 w1 n s G) as K.
    now rewrite H in K.
Qed.

Lemma sequential_app : forall pre rest self w,
  _start_servers_sequential self (pre ++ rest) w
  = match _start_servers_sequential self pre w with
    | (Return _, self1, w1) => _start_servers_sequential self1 rest w1
    | (Raise e, self1, w1) => (Raise e, self1, w1)
    end.
Proof.
  induction pre as [|n pre IH]; intros rest self w; cbn.
  - reflexivity.
  - destruct (start_server self n w) as [[[s|e] self1] w1]; [apply IH | reflexivity].
Qed.

(** X10: [stop_all_servers] leaves nothing registered: no name has a
    session, [connected_servers] is empty, and stopping all servers again
    changes neither the manager nor the world. *)
Theorem stop_all_servers_is_final :
  forall (self : MCPServerManager) (w : World),
    _sessions (fst (stop_all_servers self w)) = []
    /\ connected_servers (fst (stop_all_servers self w)) = []
    /\ (forall server_name,
          get_session (fst (stop_all_servers self w)) server_name = None)
    /\ stop_all_servers (fst (stop_all_servers self w)) (snd (stop_all_servers self w))
       = stop_all_servers self w.
Proof.
  intros self w. pose proof (stop_all_servers_empties self w) as E.
  destruct (stop_all_servers self w) as [self1 w1]. cbn [fst snd] in *.
  split; [exact E|]. split; [|split].
  - unfold connected_servers. now rewrite E.
  - intros server_name. unfold get_session. now rewrite E.
  - unfold stop_all_servers. now rewrite E.
Qed.

(** X11: when the sequential start returns, it returns the manager's
    sessions and every configured name it was given has a live session. *)
Theorem sequential_start_connects_all :
  forall (names : list string) (self : MCPServerManager) (w : World)
         (d : Dict MCPClientSession) (self' : MCPServerManager) (w' : World),
    _start_servers_sequential self names w = (Return d, self', w') ->
    d = _sessions self'
    /\ forall n, In n names ->
         exists session,
           get_session self' n = Some session
           /\ is_connected session = true
           /\ In n (connected_servers self').
Proof.
  intros names self w d self' w' H.
  destruct (sequential_success_live _ _ _ _ _ _ H) as [D L].
  split; [exact D|]. intros n Hin. destruct (L n Hin) as [s G].
  exists s. split; [exact G|].
  destruct (get_session_connected _ _ _ G) as [C F]. split; [exact C|].
  unfold connected_servers. apply in_map_iff. exists (n, s). split; [reflexivity|].
  apply filter_In. split; [now apply DictFacts.get_in_keys | exact C].
Qed.

(** X12: the sequential start fails fast and does not roll back: when the
    servers of [pre] have started and the start of [n] raises, the whole
    start raises that exception in the state the failed start left, the
    servers of [pre] still have their live sessions, and the servers after
    [n] are never attempted. *)
Theorem sequential_start_fails_fast :
  forall (pre post : list string) (n : string) (self : MCPServerManager) (w : World)
         (d : Dict MCPClientSession) (self1 : MCPServerManager) (w1 : World)
         (e : PyExn) (self2 : MCPServerManager) (w2 : World),
    _start_servers_sequential self pre w = (Return d, self1, w1) ->
    start_server self1 n w1 = (Raise e, self2, w2) ->
    _start_servers_sequential self (pre ++ n :: post) w = (Raise e, self2, w2)
    /\ _sessions self2 = _sessions self1
    /\ forall m, In m pre -> exists session, get_session self2 m = Some session.
Proof.
  intros pre post n self w d self1 w1 e self2 w2 Hpre Hn.
  split; [|split].
  - rewrite sequential_app, Hpre. cbn. now rewrite Hn.
  - now apply start_server_failure in Hn.
  - intros m Hin. destruct (sequential_success_live _ _ _ _ _ _ Hpre) as [_ L].
    destruct (L m Hin) as [s G]. exists s. rewrite <- G.
    apply get_session_same_entry. apply start_server_failure in Hn.
    destruct Hn as [S _]. now rewrite S.
Qed.

(** X13: [get_session] answers only with a connected session, one that is
    registered under that name, and every name it answers for is listed by
    [connected_servers]. *)
Theorem get_session_is_live :
  forall (self : MCPServerManager) (server_name : string) (session : MCPClientSession),
    get_session self server_name = Some session ->
    is_connected session = true
    /\ In (server_name, session) (_sessions self)
    /\ In server_name (connected_servers self).
Proof.
  intros self server_name session G.
  destruct (get_session_connected _ _ _ G) as [C F].
  pose proof (DictFacts.get_in_keys _ _ _ F) as Hin.
  split; [exact C|]. split; [exact Hin|].
  unfold connected_servers. apply in_map_iff. exists (server_name, session).
  split; [reflexivity|]. apply filter_In. now split.
Qed.

End StartupProperties.

(** X11 at the sequential start of alpha alone. *)
Lemma sequential_start_connects_all_witness :
  [("alpha", Scenarios.alpha_session)] = Manager._sessions Scenarios.alpha_started
  /\ forall n, In n ["alpha"] ->
       exists session,
         Manager.get_session Scenarios.alpha_started n = Some session
         /\ Session.is_connected session = true
         /\ In n (Manager.connected_servers Scenarios.alpha_started).
Proof.
  apply (sequential_start_connects_all (RT := Scripted.runtime)
           (TR := Scripted.transport)
           ["alpha"] Scripted.manager Scenarios.one_open
           [("alpha", Scenarios.alpha_session)] Scenarios.alpha_started
           Scenarios.after_open).
  reflexivity.
Defined.

(** X12 at the three servers, where alpha connects and beta finds no executable. *)
Lemma sequential_start_fails_fast_witness :
  Manager._start_servers_sequential (RT := Scripted.runtime)
    (TR := Scripted.transport)
    Scripted.manager (["alpha"] ++ "beta" :: ["gamma"]) Scenarios.one_open
  = (Raise (Scenarios.no_such_file "beta"), Scenarios.beta_failed,
     Scenarios.after_two_attempts)
  /\ Manager._sessions Scenarios.beta_failed = Manager._sessions Scenarios.alpha_started
  /\ forall m, In m ["alpha"] ->
       exists session, Manager.get_session Scenarios.beta_failed m = Some session.
Proof.
  apply (sequential_start_fails_fast (RT := Scripted.runtime)
           (TR := Scripted.transport)
           ["alpha"] ["gamma"] "beta" Scripted.manager Scenarios.one_open
           [("alpha", Scenarios.alpha_session)] Scenarios.alpha_started
           Scenarios.after_open); reflexivity.
Defined.

(** X13 at the manager that started alpha. *)
Lemma get_session_is_live_witness :
  Session.is_connected Scenarios.alpha_session = true
  /\ In ("alpha", Scenarios.alpha_session) (Manager._sessions Scenarios.alpha_started)
  /\ In "alpha" (Manager.connected_servers Scenarios.alpha_started).
Proof.
  apply (get_session_is_live (TR := Scripted.transport)
           Scenarios.alpha_started "alpha" Scenarios.alpha_session).
  reflexivity.
Defined.

Section ParallelProperties.
Context `{RT : PyRuntime} `{TR : Transport}.
Import Session Manager.

Lemma task_result_logged : forall log i r,
  task_result log i = Some r -> In (i, r) log.
Proof.
  intros log i r. unfold task_result.
  destruct (find (fun entry => Nat.eqb (fst entry) i) log) as [[j r']|] eqn:F;
    [|discriminate].
  cbn. intros H; inversion H; subst. apply find_some in F. destruct F as [Hin Hj].
  cbn in Hj. apply Nat.eqb_eq in Hj. now subst.
Qed.

(** Every task that returned a session leaves its server live at the end. *)
Lemma run_tasks_live : forall schedule names self w log,
  (forall i s name, In (i, Return s) log -> nth_error names i = Some name ->
                    exists s', get_session self name = Some s') ->
  forall i s name,
    In (i, Return s) (fst (fst (run_tasks schedule names self w log))) ->
    nth_error names i = Some name ->
    exists s', get_session (snd (fst (run_tasks schedule names self w log))) name
               = Some s'.
Proof.
  induction schedule as [|j schedule IH]; intros names self w log Inv; cbn [run_tasks].
  - exact Inv.
  - destruct (nth_error names j) as [nm|] eqn:Ej; [|now apply IH].
    pose proof (fun other session => start_server_keeps_live self nm w other session)
      as Keep.
    destruct (start_server self nm w) as [[r self1] w1] eqn:E. cbn [fst snd] in Keep.
    apply IH. intros i s name Hin Hn. apply in_app_iff in Hin.
    destruct Hin as [Hin|[Heq|[]]].
    + destruct (Inv i s name Hin Hn) as [s' G]. exists s'. now apply Keep.
    + inversion Heq; subst. rewrite Ej in Hn. inversion Hn; subst.
      apply start_server_success in E. destruct E as [G _]. now exists s.
Qed.

(** X14: when every task is scheduled and none raises, the parallel start
    returns the manager's sessions, stops nothing, and every server name it
    was given has a live session. *)
Theorem parallel_start_connects_all :
  forall (names : list string) (self : MCPServerManager) (schedule : list nat)
         (w : World),
    let ran := run_tasks schedule names self w [] in
    (forall i, i < List.length names -> In i schedule) ->
    Spec.failures names (gathered names (fst (fst ran))) = [] ->
    _start_servers_parallel self names schedule w
    = (Return (_sessions (snd (fst ran))), snd (fst ran), snd ran)
    /\ forall n, In n names ->
         exists session,
           get_session (snd (fst ran)) n = Some session
           /\ is_connected session = true.
Proof.
  intros names self schedule w ran Hs Hf. split.
  - unfold _start_servers_parallel. fold ran.
    destruct ran as [[log self1] w1]. cbn [fst snd] in *.
    now rewrite collect_errors_failures, Hf.
  - intros n Hin. apply In_nth_error in Hin. destruct Hin as [i Hi].
    assert (Hlt : i < List.length names) by (apply nth_error_Some; congruence).
    assert (Hlog : In i (map fst (fst (fst ran)))).
    { apply run_tasks_log; [congruence | right; now apply Hs]. }
    apply in_map_iff in Hlog. destruct Hlog as [[j r0] [Hj Hr0]]. cbn in Hj. subst j.
    destruct (task_result (fst (fst ran)) i) as [r|] eqn:T.
    + destruct r as [s|e].
      * apply task_result_logged in T.
        destruct (run_tasks_live schedule names self w []
                    (fun _ _ _ (F : In _ []) => match F with end) i s n T Hi)
          as [s' G].
        exists s'. split; [exact G|]. now apply (get_session_connected _ _ _ G).
      * exfalso. pose proof (failed_task_is_failure names _ i n e Hi T) as F.
        now rewrite Hf in F.
    + exfalso. unfold task_result in T.
      destruct (find (fun entry => Nat.eqb (fst entry) i) (fst (fst ran))) eqn:F;
        [discriminate|].
      apply (find_none _ _ F) in Hr0. cbn in Hr0. now rewrite Nat.eqb_refl in Hr0.
Qed.

End ParallelProperties.

(** X14 at the three servers, started in the order gamma, alpha, beta in a
    world where every connection succeeds. *)
Lemma parallel_start_connects_all_witness :
  let names := ["alpha"; "beta"; "gamma"] in
  let ran :=
    Manager.run_tasks (RT := Scripted.runtime) (TR := Scripted.transport)
      [2; 0; 1] names Scripted.manager Scenarios.three_opens [] in
  Manager._start_servers_parallel (RT := Scripted.runtime) (TR := Scripted.transport)
    Scripted.manager names [2; 0; 1] Scenarios.three_opens
  = (Return (Manager._sessions (snd (fst ran))), snd (fst ran), snd ran)
  /\ forall n, In n names ->
       exists session,
         Manager.get_session (snd (fst ran)) n = Some session
         /\ Session.is_connected session = true.
Proof.
  apply (parallel_start_connects_all (RT := Scripted.runtime)
           (TR := Scripted.transport)
           ["alpha"; "beta"; "gamma"] Scripted.manager [2; 0; 1]
           Scenarios.three_opens).
  - intros i Hi. cbn in Hi. destruct i as [|[|[|i]]]; cbn; auto. lia.
  - reflexivity.
Defined.

(* ===================================================================== *)
(** ** Further properties: the call history *)
(* ===================================================================== *)
Section HistoryProperties.
Context `{RT : PyRuntime} `{TR : Transport}.
Import Session Caller Driver.

Lemma last_of_snoc : forall {A} (l : list A) (x : A),
  nth_error (l ++ [x]) (List.length (l ++ [x]) - 1) = Some x.
Proof.
  intros A l x. rewrite length_app. cbn [List.length].
  replace (List.length l + 1 - 1) with (List.length l) by lia.
  rewrite nth_error_app2 by lia. now rewrite Nat.sub_diag.
Qed.

Lemma calls_for_tool_count : forall (h : list ToolCallResult) (t : string),
  List.length (filter (fun c => String.eqb (Outcome.name c) t) h)
  = count_occ string_dec (map Outcome.name h) t.
Proof.
  intros h t; induction h as [|c h IH]; cbn; [reflexivity|].
  destruct (String.eqb_spec (Outcome.name c) t) as [E|E];
    destruct (string_dec (Outcome.name c) t) as [D|D]; try congruence; cbn;
    now rewrite IH.
Qed.

(** X15: after a call, [get_last_call] is the outcome just returned, the
    calls recorded for that tool gain exactly this outcome at the end, and
    the calls recorded for any other tool are unchanged; after
    [clear_history] there is no last call. *)
Theorem queries_after_call :
  forall (self : ToolCaller) (tool_name : string) (arguments : option (Dict PyValue))
         (timeout : option float) (expect_error : bool) (w : World),
    exists (o : ToolCallResult) (self' : ToolCaller) (w' : World),
      call self tool_name arguments timeout expect_error w = (Return o, self', w')
      /\ get_last_call self' = Some o
      /\ get_calls_for_tool self' tool_name
         = (get_calls_for_tool self tool_name ++ [o])%list
      /\ (forall other, other <> tool_name ->
            get_calls_for_tool self' other = get_calls_for_tool self other)
      /\ get_last_call (clear_history self') = None
      /\ call_history (clear_history self') = [].
Proof.
  intros self tool_name arguments timeout expect_error w.
  destruct (call_returns self tool_name arguments timeout expect_error w)
    as [o [w' [E N]]].
  exists o, (record_call self o), w'. split; [exact E|]. split; [|split; [|split]].
  - unfold get_last_call, record_call. cbn [_call_history].
    destruct (_call_history self ++ [o])%list eqn:L.
    + now destruct (_call_history self).
    + rewrite <- L. apply last_of_snoc.
  - unfold get_calls_for_tool, record_call. cbn [_call_history].
    rewrite filter_app. cbn. rewrite N. now rewrite String.eqb_refl.
  - intros other Hne. unfold get_calls_for_tool, record_call. cbn [_call_history].
    rewrite filter_app. cbn. rewrite N.
    destruct (String.eqb_spec tool_name other); [congruence | now rewrite app_nil_r].
  - split; reflexivity.
Qed.

(** X16: over any sequence of operations on a new [ToolCaller],
    [get_calls_for_tool] returns as many entries as calls were issued for
    that tool, and each of them bears the tool's name. *)
Theorem calls_for_tool_counts_issued :
  forall (session : MCPClientSession) (default_timeout : float) (w : World)
         (ops : list Op) (t : string),
    let self := fst (run ops (Caller.new session default_timeout, w)) in
    List.length (get_calls_for_tool self t)
    = count_occ string_dec (flat_map issued ops) t
    /\ Forall (fun c => Outcome.name c = t) (get_calls_for_tool self t).
Proof.
  intros session default_timeout w ops t self. split.
  - unfold get_calls_for_tool. rewrite calls_for_tool_count.
    unfold self. fold (call_history (fst (run ops (Caller.new session default_timeout, w)))).
    now rewrite run_history.
  - apply Forall_forall. intros c Hin. unfold get_calls_for_tool in Hin.
    apply filter_In in Hin. destruct Hin as [_ Hn]. now apply String.eqb_eq.
Qed.

(** X17: [clear_history] forgets every earlier call: whatever the caller had
    recorded, the history after clearing and running further operations
    lists the calls issued since, in order, and nothing else. *)
Theorem clear_history_starts_over :
  forall (self : ToolCaller) (w : World) (ops : list Op),
    map Outcome.name (call_history (fst (run ops (clear_history self, w))))
    = flat_map issued ops.
Proof. intros self w ops. now rewrite run_history. Qed.

End HistoryProperties.

(* ===================================================================== *)
(** ** Further properties: assertions *)
(* ===================================================================== *)
Section AssertionProperties.
Context `{RT : PyRuntime}.

(** The negation of an assertion, as an assertion. *)
Lemma not_passed : forall a o,
  passed (check (NotAssertion.as_base (NotAssertion.mk a)) o) = negb (passed (check a o)).
Proof. reflexivity. Qed.

Lemma negb_forallb : forall {A} (f : A -> bool) (l : list A),
  negb (forallb f l) = existsb (fun x => negb (f x)) l.
Proof.
  intros A f l; induction l as [|x l IH]; cbn; [reflexivity|].
  now rewrite negb_andb, IH.
Qed.

Lemma negb_existsb : forall {A} (f : A -> bool) (l : list A),
  negb (existsb f l) = forallb (fun x => negb (f x)) l.
Proof.
  intros A f l; induction l as [|x l IH]; cbn; [reflexivity|].
  now rewrite negb_orb, IH.
Qed.

(** X18: negation and composition obey De Morgan's laws: the negation of an
    AND composite passes exactly when the OR composite of the negated inner
    assertions passes, and the negation of an OR composite exactly when the
    AND composite of the negated inner assertions passes. *)
Theorem not_composite_de_morgan :
  forall (l : list BaseAssertion) (o : ToolCallResult),
    let negated := map (fun a => NotAssertion.as_base (NotAssertion.mk a)) l in
    passed (check (NotAssertion.as_base
                     (NotAssertion.mk
                        (CompositeAssertion.as_base (CompositeAssertion.AllOf l)))) o)
    = passed (check (CompositeAssertion.as_base (CompositeAssertion.AnyOf negated)) o)
    /\ passed (check (NotAssertion.as_base
                        (NotAssertion.mk
                           (CompositeAssertion.as_base (CompositeAssertion.AnyOf l)))) o)
       = passed (check (CompositeAssertion.as_base (CompositeAssertion.AllOf negated)) o).
Proof.
  intros l o negated. subst negated. rewrite !not_passed.
  cbn [check CompositeAssertion.as_base].
  rewrite !composite_all_passed, !composite_any_passed.
  rewrite negb_forallb, negb_existsb.
  rewrite Facts.existsb_over_map, Facts.forallb_over_map. split; reflexivity.
Qed.

(** X19: [add] extends a composite by one conjunct or disjunct: an AND
    composite with an added assertion passes iff the composite passed and
    the added assertion passes; an OR composite iff either does.  The empty
    AND composite passes on every outcome and the empty OR composite fails
    on every outcome. *)
Theorem composite_add_extends :
  forall (l : list BaseAssertion) (a : BaseAssertion) (o : ToolCallResult),
    passed (CompositeAssertion.check
              (CompositeAssertion.add (CompositeAssertion.AllOf l) a) o)
    = passed (CompositeAssertion.check (CompositeAssertion.AllOf l) o)
      && passed (check a o)
    /\ passed (CompositeAssertion.check
                 (CompositeAssertion.add (CompositeAssertion.AnyOf l) a) o)
       = passed (CompositeAssertion.check (CompositeAssertion.AnyOf l) o)
         || passed (check a o)
    /\ passed (CompositeAssertion.check (CompositeAssertion.AllOf []) o) = true
    /\ passed (CompositeAssertion.check (CompositeAssertion.AnyOf []) o) = false.
Proof.
  intros l a o. unfold CompositeAssertion.add.
  cbn [CompositeAssertion._assertions CompositeAssertion._operator
       CompositeAssertion.AllOf CompositeAssertion.AnyOf].
  change (CompositeAssertion.mk (l ++ [a]) "and")
    with (CompositeAssertion.AllOf (l ++ [a])).
  change (CompositeAssertion.mk (l ++ [a]) "or")
    with (CompositeAssertion.AnyOf (l ++ [a])).
  change (CompositeAssertion.mk l "and") with (CompositeAssertion.AllOf l).
  change (CompositeAssertion.mk l "or") with (CompositeAssertion.AnyOf l).
  rewrite !composite_all_passed, !composite_any_passed.
  rewrite forallb_app, existsb_app. cbn.
  rewrite andb_true_r, orb_false_r. repeat split.
Qed.

(** X20: composites nest transparently: an AND composite that contains an
    AND composite passes exactly when the AND composite of all the inner
    assertions does, and likewise for OR. *)
Theorem composite_nesting_flattens :
  forall (inner rest : list BaseAssertion) (o : ToolCallResult),
    passed (CompositeAssertion.check
              (CompositeAssertion.AllOf
                 (CompositeAssertion.as_base (CompositeAssertion.AllOf inner) :: rest)) o)
    = passed (CompositeAssertion.check (CompositeAssertion.AllOf (inner ++ rest)) o)
    /\ passed (CompositeAssertion.check
                 (CompositeAssertion.AnyOf
                    (CompositeAssertion.as_base (CompositeAssertion.AnyOf inner) :: rest))
                 o)
       = passed (CompositeAssertion.check (CompositeAssertion.AnyOf (inner ++ rest)) o).
Proof.
  intros inner rest o.
  rewrite !composite_all_passed, !composite_any_passed.
  rewrite forallb_app, existsb_app. cbn [forallb existsb check CompositeAssertion.as_base].
  now rewrite composite_all_passed, composite_any_passed.
Qed.

(** X21: a composite can be built with the operators "and" and "or" only:
    [CompositeAssertion.new] returns the composite for these two, and for
    any other operator, "AND" and "OR" in capitals included, it raises a
    [ValueError] that names the operator. *)
Theorem composite_operator_is_validated :
  forall (l : list BaseAssertion) (operator : string),
    (operator = "and" \/ operator = "or" ->
     CompositeAssertion.new l operator = Return (CompositeAssertion.mk l operator))
    /\ (operator <> "and" -> operator <> "or" ->
        CompositeAssertion.new l operator
        = Raise (mkExn ValueError
                   ("Invalid operator: " ++ operator ++ ". Must be 'and' or 'or'")))
    /\ CompositeAssertion.new l "AND" <> Return (CompositeAssertion.mk l "AND")
    /\ CompositeAssertion.new l "OR" <> Return (CompositeAssertion.mk l "OR").
Proof.
  intros l operator. unfold CompositeAssertion.new. split; [|split; [|split]].
  - intros [-> | ->]; reflexivity.
  - intros Ha Ho.
    destruct (String.eqb_spec operator "and"); [contradiction|].
    destruct (String.eqb_spec operator "or"); [contradiction|]. reflexivity.
  - discriminate.
  - discriminate.
Qed.

(** X22: the Success assertion and the Error assertion without a pattern are
    complementary: on every outcome exactly one of them passes. *)
Theorem success_and_error_are_complementary :
  forall o : ToolCallResult,
    passed (ErrorAssertion.check (ErrorAssertion.new None) o)
    = negb (passed (SuccessAssertion.check o))
    /\ passed (SuccessAssertion.check o) = success o.
Proof.
  intros o. rewrite error_assertion_passed. cbn [truthy_opt andb].
  unfold SuccessAssertion.check. cbn [passed]. now rewrite andb_true_r.
Qed.

(** X23: a custom predicate cannot break a check: the assertion passes
    exactly when the predicate returns [True]; when the predicate raises,
    the check fails and carries the exception text in its message and
    details; when the message builder raises, the failure message falls
    back to the description. *)
Theorem custom_assertion_isolates_exceptions :
  forall (c : CustomAssertion.t) (o : ToolCallResult),
    (passed (CustomAssertion.check c o) = true
     <-> CustomAssertion._check_func c o = Return true)
    /\ (forall e, CustomAssertion._check_func c o = Raise e ->
          message (CustomAssertion.check c o)
          = "Assertion check failed with error: " ++ exc_str e
          /\ details (CustomAssertion.check c o) = Some (exc_str e))
    /\ (forall f e, CustomAssertion._check_func c o = Return false ->
          CustomAssertion._message_func c = Some f -> f o = Raise e ->
          message (CustomAssertion.check c o)
          = "Failed: " ++ CustomAssertion._description c).
Proof.
  intros c o. unfold CustomAssertion.check. split; [|split].
  - destruct (CustomAssertion._check_func c o) as [[|]|e]; cbn; split;
      congruence.
  - intros e ->. split; reflexivity.
  - intros f e -> -> ->. reflexivity.
Qed.

End AssertionProperties.

Section ExpectationProperties.
Context `{RT : PyRuntime} `{TR : Transport}.
Import Session Caller Driver.

(** X24: an outcome obtained with [expect_error] from a tool that answered
    with an error is a success, so every Error assertion, with or without a
    pattern, fails on it with "Tool call should fail", and the Success
    assertion passes. *)
Theorem error_assertion_rejects_expected_error :
  forall (self : ToolCaller) (tool_name : string) (arguments : option (Dict PyValue))
         (timeout : option float) (w : World) (r : CallToolResult) (w1 : World)
         (error_pattern : option string),
    session_answer self tool_name arguments timeout w = (Return r, w1) ->
    isError r = true ->
    exists (o : ToolCallResult) (self' : ToolCaller) (w' : World),
      call self tool_name arguments timeout true w = (Return o, self', w')
      /\ success o = true
      /\ error_message o = None
      /\ passed (ErrorAssertion.check (ErrorAssertion.new error_pattern) o) = false
      /\ message (ErrorAssertion.check (ErrorAssertion.new error_pattern) o)
         = "Tool call should fail"
      /\ passed (SuccessAssertion.check o) = true.
Proof.
  intros self tool_name arguments timeout w r w1 error_pattern H E.
  eexists; eexists; eexists. split.
  - apply (call_on_return _ _ _ _ true _ _ _ H).
  - unfold ErrorAssertion.check, SuccessAssertion.check.
    cbn [success error_message Outcome.new passed message]. rewrite E. repeat split.
Qed.

(** X25: [call_and_assert] calls without [expect_error], so with the single
    assertion [ErrorAssertion()] it returns the outcome when the tool
    answers with an error, and raises the [AssertionError] "Tool call fails:
    Tool call should fail" when the tool succeeds. *)
Theorem call_and_assert_with_error_assertion :
  forall (self : ToolCaller) (tool_name : string) (arguments : option (Dict PyValue))
         (timeout : option float) (w : World) (r : CallToolResult) (w1 : World),
    session_answer self tool_name arguments timeout w = (Return r, w1) ->
    exists (o : ToolCallResult) (self' : ToolCaller) (w' : World),
      call self tool_name arguments timeout false w = (Return o, self', w')
      /\ (isError r = true ->
          call_and_assert self tool_name arguments
            (Some [ErrorAssertion.as_base (ErrorAssertion.new None)]) timeout w
          = (Return o, self', w'))
      /\ (isError r = false ->
          call_and_assert self tool_name arguments
            (Some [ErrorAssertion.as_base (ErrorAssertion.new None)]) timeout w
          = (Raise (mkExn AssertionError
                      ("Tool call '" ++ tool_name ++ "' failed assertions:" ++ newline
                         ++ "- Tool call fails: Tool call should fail")),
             self', w')).
Proof.
  intros self tool_name arguments timeout w r w1 H.
  pose proof (call_on_return _ _ _ _ false _ _ _ H) as C. cbv zeta in C.
  eexists; eexists; eexists. split; [exact C|].
  rewrite (call_and_assert_after_call _ _ _ _ _ _ _ _ _ C).
  unfold Spec.failing. cbn [filter check ErrorAssertion.as_base].
  unfold ErrorAssertion.check at 1 2.
  cbn [success Outcome.new ErrorAssertion._pattern ErrorAssertion.new truthy_opt].
  split; intros E; rewrite E; reflexivity.
Qed.

End ExpectationProperties.

(** X24 at a tool that answers with an error, called with [expect_error]. *)
Lemma error_assertion_rejects_expected_error_witness :
  exists (o : ToolCallResult) (self' : Caller.ToolCaller) (w' : Scripted.world),
    Caller.call (RT := Scripted.runtime) (TR := Scripted.transport)
      Scripted.caller "fail" None None true
      (Scripted.start [] [Finished (Return Scripted.error_result)] [])
    = (Return o, self', w')
    /\ success o = true
    /\ error_message o = None
    /\ passed (@ErrorAssertion.check Scripted.runtime
                 (ErrorAssertion.new (Some "boom")) o) = false
    /\ message (@ErrorAssertion.check Scripted.runtime
                  (ErrorAssertion.new (Some "boom")) o)
       = "Tool call should fail"
    /\ passed (SuccessAssertion.check o) = true.
Proof.
  apply (error_assertion_rejects_expected_error (RT := Scripted.runtime)
           (TR := Scripted.transport)
           Scripted.caller "fail" None None
           (Scripted.start [] [Finished (Return Scripted.error_result)] [])
           Scripted.error_result Scripted.after_call (Some "boom")); reflexivity.
Defined.

(** X25 at a tool that answers with an error. *)
Lemma call_and_assert_with_error_assertion_witness :
  exists (o : ToolCallResult) (self' : Caller.ToolCaller) (w' : Scripted.world),
    Caller.call (RT := Scripted.runtime) (TR := Scripted.transport)
      Scripted.caller "fail" None None false
      (Scripted.start [] [Finished (Return Scripted.error_result)] [])
    = (Return o, self', w')
    /\ (isError Scripted.error_result = true ->
        Caller.call_and_assert (RT := Scripted.runtime) (TR := Scripted.transport)
          Scripted.caller "fail" None
          (Some [@ErrorAssertion.as_base Scripted.runtime (ErrorAssertion.new None)])
          None (Scripted.start [] [Finished (Return Scripted.error_result)] [])
        = (Return o, self', w'))
    /\ (isError Scripted.error_result = false ->
        Caller.call_and_assert (RT := Scripted.runtime) (TR := Scripted.transport)
          Scripted.caller "fail" None
          (Some [@ErrorAssertion.as_base Scripted.runtime (ErrorAssertion.new None)])
          None (Scripted.start [] [Finished (Return Scripted.error_result)] [])
        = (Raise (mkExn AssertionError
                    ("Tool call '" ++ "fail" ++ "' failed assertions:" ++ newline
                       ++ "- Tool call fails: Tool call should fail")),
           self', w')).
Proof.
  apply (call_and_assert_with_error_assertion (RT := Scripted.runtime)
           (TR := Scripted.transport)
           Scripted.caller "fail" None None
           (Scripted.start [] [Finished (Return Scripted.error_result)] [])
           Scripted.error_result Scripted.after_call); reflexivity.
Defined.

(* ===================================================================== *)
(** ** Further properties: configuration, launch parameters, result text *)
(* ===================================================================== *)
Section DataProperties.
Context `{RT : PyRuntime} `{TR : Transport}.

Lemma find_first : forall {A} (f : A -> bool) (l : list A) (x : A),
  find f l = Some x ->
  f x = true
  /\ exists pre post, l = (pre ++ x :: post)%list /\ forall y, In y pre -> f y = false.
Proof.
  intros A f l x; induction l as [|a l IH]; cbn; [discriminate|].
  destruct (f a) eqn:Fa.
  - intros H; inversion H; subst. split; [exact Fa|].
    exists [], l. split; [reflexivity | intros y []].
  - intros H. destruct (IH H) as [Fx [pre [post [E P]]]]. split; [exact Fx|].
    exists (a :: pre), post. split; [now rewrite E|].
    intros y [<-|Hy]; [exact Fa | now apply P].
Qed.

(** X26: [get_server] returns the first configured server of the requested
    name (servers listed before it bear other names), and [None] exactly
    when no configured server bears the name. *)
Theorem get_server_finds_first :
  forall (config : Config.MCPTestConfig) (server_name : string),
    match Config.get_server config server_name with
    | Some server =>
        Config.name server = server_name
        /\ In server_name (Config.get_server_names config)
        /\ exists pre post,
             Config.servers config = (pre ++ server :: post)%list
             /\ forall s, In s pre -> Config.name s <> server_name
    | None => ~ In server_name (Config.get_server_names config)
    end.
Proof.
  intros config server_name. unfold Config.get_server, Config.get_server_names.
  destruct (find _ (Config.servers config)) as [server|] eqn:F.
  - apply find_first in F. destruct F as [Fx [pre [post [E P]]]].
    apply String.eqb_eq in Fx. split; [exact Fx|]. split.
    + rewrite E, map_app, in_app_iff. right. left. exact Fx.
    + exists pre, post. split; [exact E|]. intros s Hs Hn.
      specialize (P s Hs). cbn in P. rewrite Hn, String.eqb_refl in P. discriminate.
  - intros Hin. apply in_map_iff in Hin. destruct Hin as [s [Hn Hs]].
    apply (find_none _ _ F) in Hs. cbn in Hs. rewrite Hn, String.eqb_refl in Hs.
    discriminate.
Qed.

Lemma dict_get_absent : forall {V} (d : Dict V) k,
  ~ In k (dict_keys d) -> dict_get d k = None.
Proof.
  intros V d k. unfold dict_get, dict_keys. induction d as [|[k0 v0] d IH]; cbn.
  - reflexivity.
  - intros H. destruct (String.eqb_spec k0 k) as [->|Hne]; [exfalso; auto|].
    apply IH. auto.
Qed.

Lemma overlay_lookup : forall {V} (overlay base : Dict V) k,
  NoDup (dict_keys overlay) ->
  dict_get (fold_left (fun d kv => dict_set d (fst kv) (snd kv)) overlay base) k
  = match dict_get overlay k with
    | Some v => Some v
    | None => dict_get base k
    end.
Proof.
  intros V overlay; induction overlay as [|[k0 v0] l IH]; intros base k N; cbn.
  - reflexivity.
  - inversion N as [|? ? Hnot Hl]; subst. rewrite (IH _ _ Hl).
    unfold dict_get at 3. cbn.
    destruct (String.eqb_spec k0 k) as [->|Hne]; cbn.
    + rewrite (dict_get_absent l k Hnot). apply DictFacts.get_set_same.
    + fold (dict_get l k). destruct (dict_get l k); [reflexivity|].
      apply DictFacts.get_set_other. congruence.
Qed.

(** X27: the launch parameters carry the inherited environment overlaid by
    the configured one: a variable the configuration sets has the
    configured value, any other variable has its inherited value; command,
    arguments and working directory are the configured ones. *)
Theorem launch_environment_is_overlaid :
  forall (self : Session.MCPClientSession) (w : World) (variable : string),
    NoDup (dict_keys (Config.env (Session._config self))) ->
    dict_get (sp_env (Session._build_server_params self w)) variable
    = match dict_get (Config.env (Session._config self)) variable with
      | Some v => Some v
      | None => dict_get (os_environ w) variable
      end
    /\ sp_command (Session._build_server_params self w)
       = Config.command (Session._config self)
    /\ sp_args (Session._build_server_params self w) = Config.args (Session._config self)
    /\ sp_cwd (Session._build_server_params self w) = Config.cwd (Session._config self).
Proof.
  intros self w variable N. unfold Session._build_server_params. cbn [sp_env].
  split; [now apply overlay_lookup | repeat split].
Qed.

(** X28: reading [text_content] is transparent: a second read returns the
    same text and leaves the outcome as the first read left it, the first
    read changes no field other than the cache (name, arguments, result,
    duration, success flag and error message are as before), and an outcome
    built with a text in its cache returns that text whatever its content
    blocks are. *)
Theorem text_content_cache_is_transparent :
  forall o : ToolCallResult,
    fst (text_content (snd (text_content o))) = fst (text_content o)
    /\ snd (text_content (snd (text_content o))) = snd (text_content o)
    /\ snd (text_content o)
       = mkToolCallResult (Outcome.name o) (arguments o) (result o)
           (duration_seconds o) (success o) (error_message o)
           (_text_content (snd (text_content o)))
    /\ Outcome.name (snd (text_content o)) = Outcome.name o
    /\ arguments (snd (text_content o)) = arguments o
    /\ result (snd (text_content o)) = result o
    /\ duration_seconds (snd (text_content o)) = duration_seconds o
    /\ success (snd (text_content o)) = success o
    /\ error_message (snd (text_content o)) = error_message o
    /\ forall cached,
         fst (text_content
                (mkToolCallResult (Outcome.name o) (arguments o) (result o)
                   (duration_seconds o) (success o) (error_message o) (Some cached)))
         = cached.
Proof.
  intros [n a r d s m cache]. unfold text_content.
  cbn [_text_content result Outcome.name arguments duration_seconds success
       error_message].
  destruct cache as [c|]; cbn [fst snd _text_content].
  - repeat split.
  - destruct (content r) as [|b blocks] eqn:C;
      cbn [fst snd _text_content result set_text_content Outcome.name arguments
           duration_seconds success error_message].
    + rewrite C. repeat split.
    + repeat split.
Qed.

End DataProperties.

(** X27 at a configuration that sets PATH, which the inherited environment
    sets as well. *)
Lemma launch_environment_is_overlaid_witness :
  dict_get (sp_env (Session._build_server_params Scenarios.overlay_session
                      (Scripted.start [] [] []))) "PATH"
  = match dict_get (Config.env (Session._config Scenarios.overlay_session)) "PATH" with
    | Some v => Some v
    | None => dict_get (@os_environ Scripted.transport (Scripted.start [] [] [])) "PATH"
    end
  /\ sp_command (Session._build_server_params Scenarios.overlay_session
                   (Scripted.start [] [] []))
     = Config.command (Session._config Scenarios.overlay_session)
  /\ sp_args (Session._build_server_params Scenarios.overlay_session
                (Scripted.start [] [] []))
     = Config.args (Session._config Scenarios.overlay_session)
  /\ sp_cwd (Session._build_server_params Scenarios.overlay_session
               (Scripted.start [] [] []))
     = Config.cwd (Session._config Scenarios.overlay_session).
Proof.
  apply (launch_environment_is_overlaid (TR := Scripted.transport)
           Scenarios.overlay_session (Scripted.start [] [] []) "PATH").
  repeat constructor; cbn; intuition discriminate.
Defined.

(** The overlaid value wins in that run. *)
Example configured_path_wins :
  dict_get (sp_env (Session._build_server_params (TR := Scripted.transport)
                      Scenarios.overlay_session (Scripted.start [] [] []))) "PATH"
  = Some "/opt/bin"
  /\ dict_get (@os_environ Scripted.transport (Scripted.start [] [] [])) "PATH"
     = Some "/usr/bin".
Proof. vm_compute. repeat split. Qed.

(* ===================================================================== *)
(** ** Further properties: failure reports and polling *)
(* ===================================================================== *)
Section ReportProperties.
Context `{RT : PyRuntime}.

Lemma substring_length_le : forall (s : string) (n m : nat),
  String.length (String.substring n m s) <= m.
Proof.
  induction s as [|c s IH]; intros n m.
  - destruct n, m; cbn; lia.
  - destruct n as [|n].
    + destruct m as [|m]; cbn; [lia|]. specialize (IH 0 m). lia.
    + cbn. apply IH.
Qed.

Lemma append_length : forall a b : string,
  String.length (a ++ b) = String.length a + String.length b.
Proof. induction a as [|c a IH]; intros b; cbn; [reflexivity | now rewrite IH]. Qed.

Lemma clip_bound : forall text,
  String.length (clip text) <= 203
  /\ (String.length text <= 200 -> clip text = text).
Proof.
  intros text. unfold clip.
  destruct (Nat.ltb_spec 200 (String.length text)) as [H|H].
  - split; [|lia]. rewrite append_length. cbn.
    pose proof (substring_length_le text 0 200). lia.
  - split; [lia | reflexivity].
Qed.

Lemma substring_head : forall (s : string) (n : nat),
  n <= String.length s ->
  String.length (String.substring 0 n s) = n
  /\ String.prefix (String.substring 0 n s) s = true.
Proof.
  induction s as [|c s IH]; intros n H.
  - cbn in H. assert (n = 0) by lia. subst. split; reflexivity.
  - destruct n as [|n]; [split; reflexivity|]. cbn in H.
    destruct (IH n) as [Hl Hp]; [lia|]. cbn. rewrite Hl. split; [reflexivity|].
    destruct (ascii_dec c c); [exact Hp | congruence].
Qed.

Lemma clip_long : forall text,
  200 < String.length text ->
  clip text = String.substring 0 200 text ++ "..."
  /\ String.length (String.substring 0 200 text) = 200
  /\ String.prefix (String.substring 0 200 text) text = true.
Proof.
  intros text H. unfold clip.
  destruct (Nat.ltb_spec 200 (String.length text)) as [_|H']; [|lia].
  split; [reflexivity|]. apply substring_head. lia.
Qed.

(** X29: the text a failed [ResultContainsAssertion] or
    [ResultMatchesAssertion] reports as actual is the result text itself
    when that has at most 200 characters, and otherwise its first 200
    characters followed by "...", so it is never longer than 203
    characters; a passing check reports no actual text. *)
Theorem failure_report_is_clipped :
  forall (c : ResultContainsAssertion.t) (m : ResultMatchesAssertion.t)
         (o : ToolCallResult),
    match actual (ResultContainsAssertion.check c o) with
    | Some a =>
        passed (ResultContainsAssertion.check c o) = false
        /\ String.length a <= 203
        /\ (String.length (Outcome.text o) <= 200 -> a = Outcome.text o)
        /\ (200 < String.length (Outcome.text o) ->
            a = String.substring 0 200 (Outcome.text o) ++ "..."
            /\ String.length (String.substring 0 200 (Outcome.text o)) = 200
            /\ String.prefix (String.substring 0 200 (Outcome.text o)) (Outcome.text o)
               = true)
    | None => passed (ResultContainsAssertion.check c o) = true
    end
    /\ match actual (ResultMatchesAssertion.check m o) with
       | Some a =>
           passed (ResultMatchesAssertion.check m o) = false
           /\ String.length a <= 203
           /\ (String.length (Outcome.text o) <= 200 -> a = Outcome.text o)
           /\ (200 < String.length (Outcome.text o) ->
               a = String.substring 0 200 (Outcome.text o) ++ "..."
               /\ String.length (String.substring 0 200 (Outcome.text o)) = 200
               /\ String.prefix (String.substring 0 200 (Outcome.text o))
                    (Outcome.text o) = true)
       | None => passed (ResultMatchesAssertion.check m o) = true
       end.
Proof.
  intros c m o. destruct (clip_bound (Outcome.text o)) as [B W].
  pose proof (clip_long (Outcome.text o)) as L. split.
  - unfold ResultContainsAssertion.check. cbv zeta.
    destruct (if ResultContainsAssertion._case_sensitive c then _ else _);
      cbn; [reflexivity | repeat split; try assumption; now apply L].
  - unfold ResultMatchesAssertion.check. cbv zeta.
    destruct (re_search _ _ _); cbn;
      [reflexivity | repeat split; try assumption; now apply L].
Qed.

End ReportProperties.

Section PollingProperties.
Context {TR : Transport} {EL : @Polling.EventLoop TR}.

(** X30: [wait_for_condition] treats a predicate that raises exactly like
    one that answered [False], and it answers [True] only when the
    predicate itself has answered [True]: with a predicate that never
    answers [True] it never returns [True].  This holds on every transport
    and event loop. *)
Theorem wait_for_condition_ignores_exceptions :
  forall (fuel : nat) (condition : @Polling.Condition TR)
         (timeout poll_interval : float) (w : @World TR),
    @Polling.wait_for_condition TR EL fuel (@Polling.quiet TR condition)
      timeout poll_interval w
    = @Polling.wait_for_condition TR EL fuel condition timeout poll_interval w
    /\ ((forall w0 : @World TR, fst (condition w0) <> Return true) ->
        forall w' : @World TR,
          @Polling.wait_for_condition TR EL fuel condition timeout poll_interval w
          <> Some (true, w')).
Proof.
  intros fuel condition timeout poll_interval w. unfold Polling.wait_for_condition.
  destruct (@perf_counter TR w) as [start_time w0]. split.
  - revert w0. induction fuel as [|fuel IH]; intros w0; cbn [Polling.wait_loop];
      [reflexivity|].
    destruct (@perf_counter TR w0) as [now w1].
    destruct (PrimFloat.ltb (PrimFloat.sub now start_time) timeout); [|reflexivity].
    unfold Polling.quiet at 1. destruct (condition w1) as [[[|]|e] w2];
      try reflexivity; apply IH.
  - intros Never. revert w0. induction fuel as [|fuel IH]; intros w0 w';
      cbn [Polling.wait_loop]; [discriminate|].
    destruct (@perf_counter TR w0) as [now w1].
    destruct (PrimFloat.ltb (PrimFloat.sub now start_time) timeout); [|discriminate].
    pose proof (Never w1) as N.
    destruct (condition w1) as [[[|]|e] w2]; cbn in N; [congruence | apply IH ..].
Qed.

End PollingProperties.

(** A poll on the scripted clock: the predicate raises at the first poll and
    answers [True] at the second; and with a predicate that always answers
    [False] the wait ends with [False] once three seconds have passed. *)
Example polling_on_the_scripted_clock :
  option_map fst
    (Polling.wait_for_condition (TR := Scripted.transport)
       (EL := Polling.scripted_loop) 10
       (fun w => if PrimFloat.ltb (Scripted.now w) 3%float
                 then (Raise Scripted.broken_pipe, w) else (Return true, w))
       30%float 1%float (Scripted.start [] [] []))
  = Some true
  /\ option_map fst
       (Polling.wait_for_condition (TR := Scripted.transport)
       (EL := Polling.scripted_loop) 10
          (fun w => (Return false, w)) 3%float 1%float (Scripted.start [] [] []))
     = Some false.
Proof. vm_compute. repeat split. Qed.

(* ===================================================================== *)
(** ** The rollback of a failed parallel start *)
(* ===================================================================== *)
Section Rollback.
Context `{RT : PyRuntime} `{TR : Transport}.
Import Session Manager.













End Rollback.


(** The same run on the recording transport: the exit stack of the failed
    attempt (2) is closed by [connect] itself, then the rollback closes the
    stacks of gamma (0) and alpha (1), and nothing stays registered. *)
Example rollback_closes_the_connected_sessions :
  Recorded.closed
    (snd (Manager.start_all_servers (RT := Scripted.runtime)
            (TR := Recorded.transport)
            Recorded.manager true [2; 0; 1] Recorded.third_open_fails))
  = [2; 0; 1]
  /\ Recorded.closed
       (snd (Manager.run_tasks (RT := Scripted.runtime) (TR := Recorded.transport)
               [2; 0; 1] (Manager.server_names Recorded.manager)
               Recorded.manager Recorded.third_open_fails []))
     = [2]
  /\ Manager.connected_servers
       (snd (fst (Manager.run_tasks (RT := Scripted.runtime)
                    (TR := Recorded.transport)
                    [2; 0; 1] (Manager.server_names Recorded.manager)
                    Recorded.manager Recorded.third_open_fails [])))
     = ["gamma"; "alpha"]
  /\ Manager._sessions
       (snd (fst (Manager.start_all_servers (RT := Scripted.runtime)
                    (TR := Recorded.transport)
                    Recorded.manager true [2; 0; 1] Recorded.third_open_fails)))
     = [].
Proof. vm_compute. repeat split. Qed.
